(** * react-dynamic-classnames: the component factory of [src/index.ts]

    A shallow embedding of [cleanClassName], [omitCustomProps] and the render
    function that [createComponent] hands to [forwardRef], followed by the
    properties of the rendered element.

    JavaScript values are a dynamically typed universe ([value]); strings are
    sequences of UTF-16 code units; objects are finite maps from property
    names to values.  The two collaborators that live outside the repository
    are modelled by what the code relies on: [clsx] (the class-name joiner)
    and React's [useMemo] (a per-instance list of memo cells compared with
    [Object.is]). *)

From stdpp Require Import gmap list strings pretty.
From Stdlib Require Import ZArith Ascii.

Set Warnings "-register-all".
Set Default Proof Using "Type".

(* ================================================================== *)
(** ** Strings *)

(** A JavaScript string is a sequence of 16-bit code units. *)
Abbreviation jsstring := (list N).

(** A literal whose characters are all ASCII. *)
Definition js (s : string) : jsstring :=
  N_of_ascii <$> String.list_ascii_of_string s.

(** The class [\s] of a regular expression, which is also what
    [String.prototype.trim] strips: WhiteSpace and LineTerminator. *)
Definition is_space (c : N) : bool :=
  ((9 <=? c) && (c <=? 13) || (c =? 32) || (c =? 160) || (c =? 5760)
   || (8192 <=? c) && (c <=? 8202) || (c =? 8232) || (c =? 8233)
   || (c =? 8239) || (c =? 8287) || (c =? 12288) || (c =? 65279))%N.

(** [s.replace(/\s+/g, ' ')]: every maximal run of white space becomes one
    U+0020.  [in_run] records that the previous unit was white space. *)
Fixpoint replace_spaces (in_run : bool) (s : jsstring) : jsstring :=
  match s with
  | [] => []
  | c :: s' =>
      if is_space c
      then (if in_run then replace_spaces true s'
            else 32%N :: replace_spaces true s')
      else c :: replace_spaces false s'
  end.

Fixpoint trimStart (s : jsstring) : jsstring :=
  match s with
  | [] => []
  | c :: s' => if is_space c then trimStart s' else s
  end.

Definition trimEnd (s : jsstring) : jsstring :=
  reverse (trimStart (reverse s)).

Definition trim (s : jsstring) : jsstring := trimEnd (trimStart s).

(** [cleanClassName = className => className.replace(/\s+/g, ' ').trim()] *)
Definition cleanClassName (className : jsstring) : jsstring :=
  trim (replace_spaces false className).

(** [key.startsWith(prefix)] *)
Fixpoint startsWith (s prefix : jsstring) {struct prefix} : bool :=
  match prefix, s with
  | [], _ => true
  | p :: prefix', c :: s' => (c =? p)%N && startsWith s' prefix'
  | _ :: _, [] => false
  end.

(* ================================================================== *)
(** ** Values *)

(** Numbers are restricted to the integers, which print in decimal; a
    function value is a handle into the table of closures of the program
    (see [fn] below), so that it has an identity and can be stored. *)
Inductive value : Type :=
  | VUndefined
  | VNull
  | VBool (b : bool)
  | VNumber (n : Z)
  | VString (s : jsstring)
  | VArray (items : list value)
  | VObject (fields : gmap jsstring value)
  | VFunction (id : N).

Inductive jstype : Set :=
  | TyUndefined | TyObject | TyBoolean | TyNumber | TyString | TyFunction.

(** The [typeof] operator; [typeof null] is ["object"]. *)
Definition typeof (v : value) : jstype :=
  match v with
  | VUndefined => TyUndefined
  | VNull => TyObject
  | VBool _ => TyBoolean
  | VNumber _ => TyNumber
  | VString _ => TyString
  | VArray _ => TyObject
  | VObject _ => TyObject
  | VFunction _ => TyFunction
  end.

(** ToBoolean. *)
Definition truthy (v : value) : bool :=
  match v with
  | VUndefined | VNull => false
  | VBool b => b
  | VNumber n => negb (n =? 0)%Z
  | VString s => match s with [] => false | _ => true end
  | VArray _ | VObject _ | VFunction _ => true
  end.

Definition number_to_string (n : Z) : jsstring := js (pretty n).

Definition index_key (i : nat) : jsstring := js (pretty (N.of_nat i)).

(** The own enumerable string-keyed properties of a value, as an object
    spread [{...v}] or a [for ... in] loop sees them. *)
Definition own_props (v : value) : gmap jsstring value :=
  match v with
  | VObject fields => fields
  | VArray items => list_to_map (imap (λ i x, (index_key i, x)) items)
  | VString s => list_to_map (imap (λ i c, (index_key i, VString [c])) s)
  | _ => ∅
  end.

(** [{...target, ...source}]: the properties of [source] are copied over
    those already in [target]. *)
Definition spread (target : gmap jsstring value) (source : value)
  : gmap jsstring value :=
  own_props source ∪ target.

(** [Object.keys(o)] *)
Definition Object_keys (o : gmap jsstring value) : list jsstring :=
  (map_to_list o).*1.

(* ================================================================== *)
(** ** Failure *)

(** What is thrown: a TypeError of the language itself, or the value of a
    [throw] statement in a function of the program. *)
Inductive error : Type :=
  | TypeError
  | Thrown (v : value).

Inductive result (A : Type) : Type :=
  | Ok (a : A)
  | Throw (e : error).
Arguments Ok {A} a.
Arguments Throw {A} e.

Definition result_bind {A B} (m : result A) (k : A → result B) : result B :=
  match m with
  | Ok a => k a
  | Throw e => Throw e
  end.

Definition result_map {A B} (f : A → B) (m : result A) : result B :=
  result_bind m (λ a, Ok (f a)).

#[global] Instance result_mret : MRet result := @Ok.
#[global] Instance result_mbind : MBind result := λ A B k m, result_bind m k.

(** [o.k] on a plain object; reading a property of [null] or [undefined]
    throws.  Inherited properties are not modelled: the names the code reads
    ([base], [classes], [css]) are on no built-in prototype. *)
Definition member (o : value) (k : jsstring) : result value :=
  match o with
  | VUndefined | VNull => Throw TypeError
  | VObject fields => Ok (default VUndefined (fields !! k))
  | _ => Ok VUndefined
  end.

(** [o?.k] *)
Definition member_opt (o : value) (k : jsstring) : result value :=
  match o with
  | VUndefined | VNull => Ok VUndefined
  | _ => member o k
  end.

(* ================================================================== *)
(** ** clsx *)

(** [str && (str += ' '); str += y] *)
Definition append_token (str y : jsstring) : jsstring :=
  match str with
  | [] => y
  | _ => str ++ 32%N :: y
  end.

(** Modelled from the spec: the class-name joiner is an external
    dependency (a variadic list of strings, falsy values and nested lists
    goes to one space-joined string).  [toVal] is the string of one
    argument: a string or number as it prints, the truthy entries of a list
    joined by spaces, the keys of a dictionary whose value is truthy (in the
    order of [map_to_list]), and nothing for anything else. *)
Fixpoint toVal (mix : value) : jsstring :=
  match mix with
  | VString s => s
  | VNumber n => number_to_string n
  | VArray items =>
      (fix loop (items : list value) (str : jsstring) : jsstring :=
         match items with
         | [] => str
         | x :: items' =>
             loop items'
               (if truthy x
                then match toVal x with
                     | [] => str
                     | y => append_token str y
                     end
                else str)
         end) items []
  | VObject fields =>
      foldl (λ str kv, if truthy kv.2 then append_token str kv.1 else str)
        [] (map_to_list fields)
  | _ => []
  end.

(** Modelled from the spec: [clsx(...args)] joins with single spaces the
    non-empty strings of its truthy arguments, in order. *)
Definition clsx (args : list value) : jsstring :=
  foldl (λ str tmp,
           if truthy tmp
           then match toVal tmp with
                | [] => str
                | x => append_token str x
                end
           else str) [] args.

(* ================================================================== *)
(** ** omitCustomProps *)

(** [customProps.includes(key)] for a string [key] and an array
    [customProps], which is what the render function passes. *)
Definition includes_key (customProps : value) (key : jsstring) : bool :=
  match customProps with
  | VArray items =>
      existsb (λ v, match v with
                    | VString s => bool_decide (s = key)
                    | _ => false
                    end) items
  | _ => false
  end.

(** The assignment [domProps[key] = v] on an object made by [{}]: it
    creates or overwrites the own property [key], except for the key
    ["__proto__"], which [Object.prototype] has as an accessor: the
    assignment then runs the inherited setter and the object gets no own
    property.  (The prototype that the setter may install is not part of
    [value], which holds own properties only.) *)
Definition assign_property (domProps : gmap jsstring value)
    (key : jsstring) (v : value) : gmap jsstring value :=
  if bool_decide (key = js "__proto__") then domProps
  else <[key := v]> domProps.

(** The loop [for (const key in props)] assigns to [domProps] every
    property whose key is not listed in [customProps].  [props] is a plain
    object: it has no inherited enumerable property. *)
Definition omitCustomProps (props customProps : value) : value :=
  VObject
    (map_fold (λ key v domProps,
                 if includes_key customProps key then domProps
                 else assign_property domProps key v)
       ∅ (own_props props)).

(* ================================================================== *)
(** ** Elements *)

(** Modelled from the spec: the host framework's [createElement] is
    outside the repository; an element is what it is called with, the tag
    and the config object. *)
Record element : Type := createElement {
  el_type : jsstring;
  el_config : gmap jsstring value;
}.

(* ================================================================== *)
(** ** useMemo *)

(** A memo cell is what React keeps for one [useMemo] call: the value and
    the dependency array of the render that computed it. *)
Definition cell : Type := value * list value.

(** A render reads the cells of the previous render in call order and
    writes the cells of this one. *)
Record hooks : Type := Hooks {
  previous : list cell;
  written : list cell;
}.

Definition Hook (A : Type) : Type := hooks → result (A * hooks).

Definition hook_ret {A} (a : A) : Hook A := λ h, Ok (a, h).

Definition hook_bind {A B} (m : Hook A) (k : A → Hook B) : Hook B :=
  λ h, match m h with
       | Ok (a, h') => k a h'
       | Throw e => Throw e
       end.

#[global] Instance hook_mret : MRet Hook := @hook_ret.
#[global] Instance hook_mbind : MBind Hook := λ A B k m, hook_bind m k.

Section Component.

(** The closures of the program: [fn id arg] is the outcome of calling the
    function [VFunction id] on one argument.  Calls have no effect other
    than their outcome. *)
Variable fn : N → value → result value.

(** [Object.is]: equality of primitives, identity of objects. *)
Variable object_is : value → value → bool.

(** [f(arg)] *)
Definition call (f arg : value) : result value :=
  match f with
  | VFunction id => fn id arg
  | _ => Throw TypeError
  end.

(** React compares the dependency arrays position by position. *)
Fixpoint areHookInputsEqual (nextDeps prevDeps : list value) : bool :=
  match nextDeps, prevDeps with
  | a :: nextDeps', b :: prevDeps' =>
      object_is a b && areHookInputsEqual nextDeps' prevDeps'
  | _, _ => true
  end.

(** Modelled from the spec: the host framework's [useMemo] is outside the
    repository; it memoizes on the identity of the declared dependencies.
    [useMemo(() => create, deps)]: on the first render, or when a
    dependency changed, [create] is evaluated and stored; otherwise the
    stored cell is returned and kept. *)
Definition useMemo (create : result value) (deps : list value)
  : Hook value :=
  λ h,
    match previous h with
    | (v, prevDeps) :: rest =>
        if areHookInputsEqual deps prevDeps
        then Ok (v, Hooks rest (written h ++ [(v, prevDeps)]))
        else match create with
             | Ok v' => Ok (v', Hooks rest (written h ++ [(v', deps)]))
             | Throw e => Throw e
             end
    | [] =>
        match create with
        | Ok v' => Ok (v', Hooks [] (written h ++ [(v', deps)]))
        | Throw e => Throw e
        end
    end.

(* ---------------------------------------------------------------- *)
(** ** The resolution steps of the render function *)

Section Render.

Variables (tag : jsstring) (options css : value).

(** Resolve base class string *)
Definition baseClass : result value :=
  match typeof options with
  | TyString => Ok options
  | TyObject => member options (js "base")
  | _ => Ok VUndefined
  end.

(** Resolve dynamic classes based on props *)
Definition dynamicClasses : result value :=
  match typeof options with
  | TyObject => member_opt options (js "classes")
  | TyFunction => Ok options
  | _ => Ok VUndefined
  end.

(** Resolve dynamic CSS based on props *)
Definition dynamicCss : result value :=
  match typeof options with
  | TyObject => member_opt options (js "css")
  | _ => Ok css
  end.

(** generate className string *)
Definition classes (baseClass dynamicClasses className props : value)
  : result value :=
  result_bind
    (if truthy dynamicClasses then call dynamicClasses props
     else Ok (VArray []))
    (λ tokens,
       Ok (VString (cleanClassName (clsx [baseClass; tokens; className])))).

(** resolve CSS object *)
Definition resolvedCss (dynamicCss props : value) : result value :=
  match typeof dynamicCss with
  | TyFunction => call dynamicCss props
  | _ => Ok dynamicCss
  end.

(** merge custom and passed styles *)
Definition mergedStyles (resolvedCss style : value) : value :=
  VObject (spread (spread ∅ resolvedCss) style).

(** collect custom props starting with '$' (the order of the keys in the
    array is not that of insertion; only membership is used) *)
Definition customProps (props : gmap jsstring value) : value :=
  VArray
    (VString <$>
       List.filter (λ key, startsWith key (js "$")) (Object_keys props)).

(** The function passed to [forwardRef]. *)
Definition RenderComponent (props : gmap jsstring value) (ref : value)
  : Hook element :=
  let className := default VUndefined (props !! js "className") in
  let style := default VUndefined (props !! js "style") in
  let restProps :=
    VObject (delete (js "style") (delete (js "className") props)) in
  baseClass ← useMemo baseClass [options];
  dynamicClasses ← useMemo dynamicClasses [options];
  dynamicCss ← useMemo dynamicCss [options; css];
  classes ←
    useMemo (classes baseClass dynamicClasses className (VObject props))
      [baseClass; dynamicClasses; className; VObject props];
  resolvedCss ←
    useMemo (resolvedCss dynamicCss (VObject props))
      [dynamicCss; VObject props];
  mergedStyles ←
    useMemo (Ok (mergedStyles resolvedCss style)) [resolvedCss; style];
  customProps ← useMemo (Ok (customProps props)) [VObject props];
  domProps ←
    useMemo (Ok (omitCustomProps restProps customProps))
      [restProps; customProps];
  hook_ret
    (createElement tag
       (<[js "ref" := ref]>
          (<[js "style" := mergedStyles]>
             (<[js "className" := classes]> (spread ∅ domProps))))).

(* -------------------------------------------------------------- *)
(** ** A mounted instance *)

(** One render of an instance whose memo cells are [cells]: the element
    and the cells it leaves behind. *)
Definition render_with (cells : list cell)
    (props : gmap jsstring value) (ref : value)
  : result (element * list cell) :=
  match RenderComponent props ref (Hooks cells []) with
  | Ok (el, h) => Ok (el, written h)
  | Throw e => Throw e
  end.

(** A render that throws leaves the cells of the instance as they
    were. *)
Definition commit (cells : list cell)
    (pr : gmap jsstring value * value) : list cell :=
  match render_with cells pr.1 pr.2 with
  | Ok (_, cells') => cells'
  | Throw _ => cells
  end.

(** The cells of an instance that was mounted and then rendered with
    each entry of [history] in turn. *)
Definition cells_after (history : list (gmap jsstring value * value))
  : list cell :=
  foldl commit [] history.

(** The element rendered for [props] and [ref] by an instance with the
    given history. *)
Definition render (history : list (gmap jsstring value * value))
    (props : gmap jsstring value) (ref : value) : result element :=
  result_map fst (render_with (cells_after history) props ref).

(** The first render of an instance. *)
Definition mount (props : gmap jsstring value) (ref : value)
  : result element :=
  render [] props ref.

(* -------------------------------------------------------------- *)
(** ** The render function without its memo cells *)

(** The element and the cells of a render in which every
    [useMemo(create, deps)] evaluates [create]. *)
Definition resolution (props : gmap jsstring value) (ref : value)
  : result (element * list cell) :=
  let className := default VUndefined (props !! js "className") in
  let style := default VUndefined (props !! js "style") in
  let restProps :=
    VObject (delete (js "style") (delete (js "className") props)) in
  bc ← baseClass;
  dc ← dynamicClasses;
  dcss ← dynamicCss;
  cls ← classes bc dc className (VObject props);
  rc ← resolvedCss dcss (VObject props);
  let ms := mergedStyles rc style in
  let cp := customProps props in
  let dp := omitCustomProps restProps cp in
  Ok (createElement tag
        (<[js "ref" := ref]>
           (<[js "style" := ms]>
              (<[js "className" := cls]> (spread ∅ dp)))),
      [ (bc, [options]); (dc, [options]); (dcss, [options; css]);
        (cls, [bc; dc; className; VObject props]);
        (rc, [dcss; VObject props]); (ms, [rc; style]);
        (cp, [VObject props]); (dp, [restProps; cp]) ]).

End Render.

End Component.

(* ================================================================== *)
(** ** Concrete programs *)

(** A table with one closure, [p => [p.active ? "active" : ""]]. *)
Definition fn_active (id : N) (p : value) : result value :=
  match id with
  | 0%N =>
      result_bind (member p (js "active"))
        (λ active,
           Ok (VArray [if truthy active then VString (js "active")
                       else VString (js "")]))
  | _ => Throw TypeError
  end.

(** An [Object.is] for programs in which every object and array is
    allocated afresh: primitives are compared by value, functions by
    handle, and no two objects are the same. *)
Definition object_is_fresh (a b : value) : bool :=
  match a, b with
  | VUndefined, VUndefined | VNull, VNull => true
  | VBool x, VBool y => bool_decide (x = y)
  | VNumber x, VNumber y => bool_decide (x = y)
  | VString x, VString y => bool_decide (x = y)
  | VFunction x, VFunction y => bool_decide (x = y)
  | _, _ => false
  end.

Definition obj (l : list (string * value)) : gmap jsstring value :=
  list_to_map (prod_map js id <$> l).
Definition str (s : string) : value := VString (js s).


(** [const Label = createComponent('div', 'foo')], rendered once with
    [{ id: "a" }] and now with
    [{ className: "bar", $size: 2, id: "x", style: { color: "blue" } }]. *)
Definition label_history : list (gmap jsstring value * value) :=
  [(obj [("id", str "a")], VNull)].

Definition label_props : gmap jsstring value :=
  obj [("className", str "bar"); ("$size", VNumber 2); ("id", str "x");
       ("style", VObject (obj [("color", str "blue")]))].

Definition label_element : element :=
  createElement (js "div")
    (obj [("id", str "x"); ("className", str "foo bar");
          ("style", VObject (obj [("color", str "blue")])); ("ref", VNull)]).

(** [createComponent('div', { base: "a", classes: p => [...],
    css: { color: "red" } })] rendered with [{ active: false }] and with
    [{ active: true, style: { color: "blue" } }]. *)
Definition toggle_options : value :=
  VObject (obj [("base", str "a"); ("classes", VFunction 0);
                ("css", VObject (obj [("color", str "red")]))]).

Definition toggle_off_props : gmap jsstring value :=
  obj [("active", VBool false)].

Definition toggle_off_element : element :=
  createElement (js "div")
    (obj [("active", VBool false); ("className", str "a");
          ("style", VObject (obj [("color", str "red")])); ("ref", VNull)]).

Definition toggle_on_props : gmap jsstring value :=
  obj [("active", VBool true);
       ("style", VObject (obj [("color", str "blue")]))].

Definition toggle_on_element : element :=
  createElement (js "div")
    (obj [("active", VBool true); ("className", str "a active");
          ("style", VObject (obj [("color", str "blue")])); ("ref", VNull)]).

(** [createComponent('div', p => ...)] with the closure of the table as
    [options], rendered with [{ active: true, className: "x" }]. *)
Definition switch_props : gmap jsstring value :=
  obj [("active", VBool true); ("className", str "x")].

Definition switch_element : element :=
  createElement (js "div")
    (obj [("active", VBool true); ("className", str "active x");
          ("style", VObject ∅); ("ref", VNull)]).

(** [createComponent('div')] rendered with [{ id: "x", $size: 2 }]. *)
Definition plain_props : gmap jsstring value :=
  obj [("id", str "x"); ("$size", VNumber 2)].

Definition plain_element : element :=
  createElement (js "div")
    (obj [("id", str "x"); ("className", str ""); ("style", VObject ∅);
          ("ref", VNull)]).

(* ================================================================== *)
(** ** Vocabulary of the specification *)

(** No two adjacent units of [s] are both white space. *)
Definition no_ws_run (s : jsstring) : Prop :=
  ∀ l1 a b l2, s = l1 ++ a :: b :: l2 →
    ¬ (is_space a = true ∧ is_space b = true).

Definition no_leading_ws (s : jsstring) : Prop :=
  ∀ c l, s = c :: l → is_space c = false.

Definition no_trailing_ws (s : jsstring) : Prop :=
  ∀ l c, s = l ++ [c] → is_space c = false.

(** A class token: a string, or a falsy value that is to be ignored. *)
Definition is_class_token (v : value) : Prop :=
  truthy v = false ∨ ∃ s, v = VString s.

(** What a token contributes: falsy and empty entries contribute nothing. *)
Definition token_string (v : value) : option jsstring :=
  match v with
  | VString (c :: s) => Some (c :: s)
  | _ => None
  end.

(** The tokens a dynamic-class function returned: the entries of a list,
    or the one string. *)
Definition tokens_of (dyn : value) : list value :=
  match dyn with
  | VArray items => items
  | v => [v]
  end.

(** [l.join(' ')] *)
Definition join_spaces (l : list jsstring) : jsstring :=
  match l with
  | [] => []
  | x :: l' => foldl (λ acc y, acc ++ 32%N :: y) x l'
  end.

(** The words of a string: its maximal runs of units that are not white
    space, in order ([s.split(/\s+/)] without the empty pieces).  [w] is
    the word being read. *)
Fixpoint words_from (w s : jsstring) : list jsstring :=
  match s with
  | [] => match w with [] => [] | _ => [w] end
  | c :: s' =>
      if is_space c
      then match w with
           | [] => words_from [] s'
           | _ => w :: words_from [] s'
           end
      else words_from (w ++ [c]) s'
  end.

Definition words (s : jsstring) : list jsstring := words_from [] s.

(** White space collapsed and trimmed, in the words of the specification:
    every run of white space counts as one space and none is left at
    either end, so what remains is the words, one U+0020 between two. *)
Definition collapse_and_trim (s : jsstring) : jsstring :=
  join_spaces (words s).

(** The final class name in the words of the specification: base class,
    dynamic class tokens and incoming [className], in that order, joined
    with single spaces, white space collapsed and trimmed. *)
Definition spec_class_name (base : value) (tokens : list value)
    (className : value) : jsstring :=
  collapse_and_trim
    (join_spaces (omap token_string (base :: tokens ++ [className]))).

(** The final style in the words of the specification: the caller's style
    merged over the computed one, the caller's value winning on a common
    key. *)
Definition spec_style (computed incoming : gmap jsstring value) (k : jsstring)
  : option value :=
  match incoming !! k with
  | Some v => Some v
  | None => computed !! k
  end.

(** The marker of an internal prop. *)
Definition is_internal (key : jsstring) : bool := startsWith key (js "$").

(** The only white space in [s] is U+0020. *)
Definition plain_spaces (s : jsstring) : Prop :=
  Forall (λ c, is_space c = true → c = 32%N) s.

(** A table with two closures that read a nested prop,
    [p => [p.theme.name]] and [p => ({ color: p.theme.color })]; both throw
    when [p.theme] is missing. *)
Definition fn_theme (id : N) (p : value) : result value :=
  match id with
  | 0%N =>
      theme ← member p (js "theme");
      name ← member theme (js "name");
      Ok (VArray [name])
  | 1%N =>
      theme ← member p (js "theme");
      color ← member theme (js "color");
      Ok (VObject (list_to_map [(js "color", color)]))
  | _ => Throw TypeError
  end.

Definition themed_props : gmap jsstring value :=
  obj [("theme", VObject (obj [("name", str "dark"); ("color", str "black")]));
       ("$wide", VBool true); ("id", str "x");
       ("ref", str "stale")].

Definition themed_element : element :=
  createElement (js "span")
    (obj [("theme", VObject (obj [("name", str "dark");
                                  ("color", str "black")]));
          ("id", str "x"); ("className", str "foo");
          ("style", VObject (obj [("color", str "black")]));
          ("ref", VNull)]).

Definition unthemed_props : gmap jsstring value :=
  obj [("id", str "x")].

(** [createComponent('div', '  btn \t primary ')] rendered with
    [{ className: " big\n" }]: an untidy base class and class name. *)
Definition untidy_base : value :=
  VString ([32; 32] ++ js "btn" ++ [32; 9; 32] ++ js "primary" ++ [32])%N.

Definition untidy_props : gmap jsstring value :=
  obj [("className", VString (32%N :: js "big" ++ [10%N]))].

Definition untidy_element : element :=
  createElement (js "div")
    (obj [("className", str "btn primary big"); ("style", VObject ∅);
          ("ref", VNull)]).

(** [createComponent('div', undefined, { color: "red" })] rendered with
    [{ id: "x", $size: 2 }]. *)
Definition tinted_element : element :=
  createElement (js "div")
    (obj [("id", str "x"); ("className", str "");
          ("style", VObject (obj [("color", str "red")])); ("ref", VNull)]).

(** [createComponent('div')] rendered with props that have an own
    ["__proto__"] entry, as [JSON.parse('{"__proto__": 1, "id": "x"}')]
    has. *)
Definition proto_props : gmap jsstring value :=
  obj [("__proto__", VNumber 1); ("id", str "x")].

Definition proto_element : element :=
  createElement (js "div")
    (obj [("id", str "x"); ("className", str ""); ("style", VObject ∅);
          ("ref", VNull)]).

(** A table with one closure that throws a value of its own,
    [p => { if (!p.theme) throw "no theme"; return [p.theme.name] }]. *)
Definition fn_guard (id : N) (p : value) : result value :=
  match id with
  | 0%N =>
      theme ← member p (js "theme");
      if truthy theme
      then name ← member theme (js "name"); Ok (VArray [name])
      else Throw (Thrown (str "no theme"))
  | _ => Throw TypeError
  end.

(* ================================================================== *)
(** * Properties *)

(** ** White space in class names *)

Lemma no_ws_run_cons a s :
  no_ws_run s →
  (∀ b l, s = b :: l → ¬ (is_space a = true ∧ is_space b = true)) →
  no_ws_run (a :: s).
Proof.
  intros Hs Ha [|x l1] a' b' l2 Heq; simplify_eq/=.
  - by eapply Ha.
  - by eapply Hs.
Qed.

Lemma no_ws_run_infix x s y : no_ws_run (x ++ s ++ y) → no_ws_run s.
Proof.
  intros H l1 a b l2 ->. apply (H (x ++ l1) a b (l2 ++ y)).
  by rewrite <- !app_assoc.
Qed.

Lemma replace_spaces_shape s : ∀ in_run,
  (in_run = true → no_leading_ws (replace_spaces in_run s))
  ∧ no_ws_run (replace_spaces in_run s).
Proof.
  induction s as [|c s IH]; intros in_run; simpl.
  - split; [by intros _ ?? ?|]. by intros [|??] ????.
  - destruct (is_space c) eqn:Hc.
    + destruct in_run; [apply IH|].
      split; [done|]. destruct (IH true) as [Hlead Hrun].
      apply no_ws_run_cons; [done|].
      intros b l Heq [_ Hb]. rewrite (Hlead eq_refl b l Heq) in Hb. done.
    + destruct (IH false) as [_ Hrun]. split.
      * intros _ c' l ?. by simplify_eq.
      * apply no_ws_run_cons; [done|]. intros b l _ [Ha _]. congruence.
Qed.

Lemma trimStart_suffix s : ∃ pre, s = pre ++ trimStart s.
Proof.
  induction s as [|c s [pre IH]]; simpl; [by exists []|].
  destruct (is_space c).
  - exists (c :: pre). simpl. by f_equal.
  - by exists [].
Qed.

Lemma trimStart_no_leading s : no_leading_ws (trimStart s).
Proof.
  induction s as [|c s IH]; simpl; [by intros ?? ?|].
  destruct (is_space c) eqn:Hc; [done|].
  intros c' l ?. by simplify_eq.
Qed.

Lemma trimEnd_prefix s : ∃ post, s = trimEnd s ++ post.
Proof.
  destruct (trimStart_suffix (reverse s)) as [pre Hpre].
  exists (reverse pre). unfold trimEnd.
  rewrite <- reverse_app, <- Hpre. by rewrite reverse_involutive.
Qed.

Lemma trimEnd_no_trailing s : no_trailing_ws (trimEnd s).
Proof.
  intros l c Heq. unfold trimEnd in Heq.
  apply (f_equal reverse) in Heq.
  rewrite reverse_involutive, reverse_app in Heq. simpl in Heq.
  by eapply trimStart_no_leading.
Qed.

Lemma trimEnd_no_leading s : no_leading_ws s → no_leading_ws (trimEnd s).
Proof.
  intros Hs c l Heq. destruct (trimEnd_prefix s) as [post Hpost].
  rewrite Heq in Hpost. by eapply Hs.
Qed.

(** The string [cleanClassName] returns has neither a run of white space
    nor white space at either end, whatever it is given. *)
Lemma cleanClassName_normalized s :
  no_ws_run (cleanClassName s)
  ∧ no_leading_ws (cleanClassName s)
  ∧ no_trailing_ws (cleanClassName s).
Proof.
  unfold cleanClassName, trim. set (r := replace_spaces false s).
  split; [|split].
  - destruct (trimStart_suffix r) as [pre Hpre].
    destruct (trimEnd_prefix (trimStart r)) as [post Hpost].
    apply (no_ws_run_infix pre _ post).
    rewrite <- Hpost, <- Hpre. apply (replace_spaces_shape s false).
  - apply trimEnd_no_leading, trimStart_no_leading.
  - apply trimEnd_no_trailing.
Qed.

(** ** Memo cells do not change what is rendered *)

Section Memo.

Variable fn : N → value → result value.
Variable object_is : value → value → bool.

(** Two values that [Object.is] identifies are the same value: objects
    are not mutated between renders. *)
Hypothesis object_is_sound : ∀ a b, object_is a b = true → a = b.

Lemma areHookInputsEqual_sound nextDeps prevDeps :
  length nextDeps = length prevDeps →
  areHookInputsEqual object_is nextDeps prevDeps = true →
  prevDeps = nextDeps.
Proof using object_is_sound.
  revert prevDeps.
  induction nextDeps as [|a l IH]; intros [|b l'] Hlen Heq;
    simplify_eq/=; [done|].
  apply andb_prop in Heq as [Hab Hl].
  apply object_is_sound in Hab as ->. f_equal. by apply IH.
Qed.

(** A cell that is only reused when it holds what [create] would give
    makes [useMemo] evaluate [create]. *)
Lemma useMemo_coherent create deps v prevDeps rest w :
  (areHookInputsEqual object_is deps prevDeps = true →
   create = Ok v ∧ prevDeps = deps) →
  useMemo object_is create deps (Hooks ((v, prevDeps) :: rest) w)
  = match create with
    | Ok v' => Ok (v', Hooks rest (w ++ [(v', deps)]))
    | Throw e => Throw e
    end.
Proof.
  intros H. unfold useMemo. simpl.
  destruct (areHookInputsEqual object_is deps prevDeps); [|done].
  by destruct H as [-> ->].
Qed.

Variables (tag : jsstring) (options css : value).

(** A reused cell was computed from the same dependencies. *)
Local Ltac reuse :=
  let Heq := fresh in
  intros Heq; apply areHookInputsEqual_sound in Heq; [|done];
  split; [congruence | exact Heq].

Lemma render_with_mount props ref :
  render_with fn object_is tag options css [] props ref
  = resolution fn tag options css props ref.
Proof.
  unfold render_with, RenderComponent, resolution.
  unfold mbind, hook_mbind, hook_bind, result_mbind, result_bind, useMemo.
  simpl.
  destruct (baseClass options) as [bc|]; [simpl|done].
  destruct (dynamicClasses options) as [dc|]; [simpl|done].
  destruct (dynamicCss options css) as [dcss|]; [simpl|done].
  destruct (classes fn bc dc _ _) as [cls|]; [simpl|done].
  destruct (resolvedCss fn dcss _) as [rc|]; [simpl|done].
  done.
Qed.

Lemma render_with_cells props' ref' el' cells props ref :
  resolution fn tag options css props' ref' = Ok (el', cells) →
  render_with fn object_is tag options css cells props ref
  = resolution fn tag options css props ref.
Proof using object_is_sound.
  unfold resolution at 1.
  unfold mbind, result_mbind, result_bind.
  destruct (baseClass options) as [bc|] eqn:Hbc; [|done].
  destruct (dynamicClasses options) as [dc|] eqn:Hdc; [|done].
  destruct (dynamicCss options css) as [dcss|] eqn:Hdcss; [|done].
  destruct (classes fn bc dc _ _) as [cls|] eqn:Hcls; [|done].
  destruct (resolvedCss fn dcss _) as [rc|] eqn:Hrc; [|done].
  intros [= <- <-].
  unfold render_with, RenderComponent, resolution.
  unfold mbind, hook_mbind, hook_bind, result_mbind, result_bind.
  rewrite useMemo_coherent by (intros _; by rewrite Hbc).
  rewrite Hbc; simpl.
  rewrite useMemo_coherent by (intros _; by rewrite Hdc).
  rewrite Hdc; simpl.
  rewrite useMemo_coherent by (intros _; by rewrite Hdcss).
  rewrite Hdcss; simpl.
  rewrite useMemo_coherent by reuse.
  destruct (classes fn bc dc _ (VObject props)) as [cls0|]; [simpl|done].
  rewrite useMemo_coherent by reuse.
  destruct (resolvedCss fn dcss (VObject props)) as [rc0|]; [simpl|done].
  rewrite useMemo_coherent by reuse. simpl.
  rewrite useMemo_coherent by reuse. simpl.
  rewrite useMemo_coherent by reuse. simpl.
  done.
Qed.

(** The cells of an instance are those of its last successful render. *)
Lemma cells_after_reachable history :
  cells_after fn object_is tag options css history = []
  ∨ ∃ props ref el,
      resolution fn tag options css props ref
      = Ok (el, cells_after fn object_is tag options css history).
Proof using object_is_sound.
  induction history as [|[props ref] history IH] using rev_ind;
    [by left|].
  unfold cells_after in *. rewrite foldl_snoc.
  set (cells := foldl _ [] history) in *.
  assert (render_with fn object_is tag options css cells props ref
          = resolution fn tag options css props ref) as Heq.
  { destruct IH as [->|(props' & ref' & el' & Hres)].
    - apply render_with_mount.
    - by eapply render_with_cells. }
  unfold commit; simpl. rewrite Heq.
  destruct (resolution fn tag options css props ref) as [[el cells']|] eqn:Hr;
    [|done].
  right. by exists props, ref, el.
Qed.

(** Whatever was rendered before, a render yields the element of
    [resolution]. *)
Lemma render_resolution history props ref :
  render fn object_is tag options css history props ref
  = result_map fst (resolution fn tag options css props ref).
Proof using object_is_sound.
  unfold render. f_equal.
  destruct (cells_after_reachable history)
    as [->|(props' & ref' & el' & Hres)].
  - apply render_with_mount.
  - by eapply render_with_cells.
Qed.

(** What a successful render went through. *)
Lemma render_inv history props ref el :
  render fn object_is tag options css history props ref = Ok el →
  ∃ bc dc dcss cls rc,
    baseClass options = Ok bc
    ∧ dynamicClasses options = Ok dc
    ∧ dynamicCss options css = Ok dcss
    ∧ classes fn bc dc (default VUndefined (props !! js "className"))
        (VObject props) = Ok cls
    ∧ resolvedCss fn dcss (VObject props) = Ok rc
    ∧ el = createElement tag
        (<[js "ref" := ref]>
           (<[js "style" :=
                mergedStyles rc (default VUndefined (props !! js "style"))]>
              (<[js "className" := cls]>
                 (spread ∅
                    (omitCustomProps
                       (VObject
                          (delete (js "style")
                             (delete (js "className") props)))
                       (customProps props)))))).
Proof using object_is_sound.
  rewrite render_resolution. unfold resolution, result_map.
  unfold mbind, result_mbind, result_bind.
  destruct (baseClass options) as [bc|]; [|done].
  destruct (dynamicClasses options) as [dc|]; [|done].
  destruct (dynamicCss options css) as [dcss|]; [|done].
  destruct (classes fn bc dc _ _) as [cls|] eqn:Hcls; [|done].
  destruct (resolvedCss fn dcss _) as [rc|] eqn:Hrc; [|done].
  intros [= <-]. by exists bc, dc, dcss, cls, rc.
Qed.

End Memo.

(** ** Objects *)

Lemma spread_empty_object fields : spread ∅ (VObject fields) = fields.
Proof. unfold spread; simpl. apply (right_id_L ∅ (∪)). Qed.

(** [{...computed, ...incoming}] read key by key. *)
Lemma mergedStyles_lookup computed incoming :
  ∃ m, mergedStyles computed incoming = VObject m
       ∧ ∀ k, m !! k = spec_style (own_props computed) (own_props incoming) k.
Proof.
  eexists; split; [done|]. intros k. unfold spread, spec_style.
  rewrite (right_id_L ∅ (∪)).
  destruct (own_props incoming !! k) as [v|] eqn:Hk.
  - by apply lookup_union_Some_l.
  - by rewrite lookup_union_r.
Qed.

Lemma includes_key_customProps props key :
  includes_key (customProps props) key = true
  ↔ is_internal key = true ∧ is_Some (props !! key).
Proof.
  unfold includes_key, customProps, Object_keys, is_internal.
  rewrite existsb_exists. split.
  - intros (v & Hin & Hv). apply list_elem_of_In in Hin.
    apply list_elem_of_fmap in Hin as (k & -> & Hk).
    apply bool_decide_eq_true in Hv as <-.
    apply list_elem_of_In, filter_In in Hk as [Hk Hstart].
    split; [done|]. apply list_elem_of_In in Hk.
    apply list_elem_of_fmap in Hk as ([k' v] & -> & Hkv).
    apply elem_of_map_to_list in Hkv. by exists v.
  - intros [Hstart [v Hv]]. exists (VString key). split.
    + apply list_elem_of_In, list_elem_of_fmap. exists key. split; [done|].
      apply list_elem_of_In, filter_In. split; [|done].
      apply list_elem_of_In, list_elem_of_fmap. exists (key, v).
      split; [done|]. by apply elem_of_map_to_list.
    + by apply bool_decide_eq_true.
Qed.

(** The loop of [omitCustomProps] keeps exactly the properties whose key
    is not listed and is not ["__proto__"]. *)
Lemma omitCustomProps_lookup fields customProps :
  ∃ m, omitCustomProps (VObject fields) customProps = VObject m
       ∧ ∀ k, m !! k = if includes_key customProps k then None
                       else if bool_decide (k = js "__proto__") then None
                       else fields !! k.
Proof.
  eexists; split; [done|]. simpl.
  apply (map_fold_weak_ind
           (λ r (m : gmap jsstring value),
              ∀ k, r !! k = if includes_key customProps k then None
                            else if bool_decide (k = js "__proto__")
                                 then None
                                 else m !! k)).
  - intros k. rewrite !lookup_empty.
    by destruct (includes_key _ _), (bool_decide (k = js "__proto__")).
  - intros i x m r Hi IH k. unfold assign_property.
    destruct (includes_key customProps i) eqn:Hinc.
    + rewrite IH. destruct (includes_key customProps k) eqn:Hk; [done|].
      destruct (bool_decide (k = js "__proto__")); [done|].
      rewrite lookup_insert_ne; [done|]. congruence.
    + destruct (bool_decide (i = js "__proto__")) eqn:Hproto.
      * rewrite IH. destruct (includes_key customProps k) eqn:Hk; [done|].
        destruct (bool_decide (k = js "__proto__")) eqn:Hkp; [done|].
        rewrite lookup_insert_ne; [done|].
        apply bool_decide_eq_true in Hproto.
        apply bool_decide_eq_false in Hkp. congruence.
      * destruct (decide (i = k)) as [->|Hne].
        -- by rewrite Hinc, Hproto, !lookup_insert_eq.
        -- by rewrite !lookup_insert_ne, IH.
Qed.

Lemma is_internal_head key :
  is_internal key = true → ∃ rest, key = 36%N :: rest.
Proof.
  destruct key as [|c rest]; [done|]. unfold is_internal.
  change (js "$") with [36%N]; simpl.
  rewrite andb_true_r. intros ->%N.eqb_eq. by eexists.
Qed.

Lemma is_internal_not_reserved key :
  is_internal key = true →
  key ≠ js "className" ∧ key ≠ js "style" ∧ key ≠ js "ref".
Proof. intros [rest ->]%is_internal_head. by repeat split. Qed.

(** The props computed by the last two steps of the render function: the
    rest props without the internal ones, and without ["__proto__"]. *)
Lemma domProps_lookup props :
  ∃ m, omitCustomProps
         (VObject (delete (js "style") (delete (js "className") props)))
         (customProps props) = VObject m
       ∧ ∀ k, m !! k =
              if is_internal k then None
              else if decide (k = js "className") then None
              else if decide (k = js "style") then None
              else if decide (k = js "__proto__") then None
              else props !! k.
Proof.
  destruct (omitCustomProps_lookup
              (delete (js "style") (delete (js "className") props))
              (customProps props)) as (m & Hm & Hlook).
  exists m. split; [done|]. intros k. rewrite Hlook.
  destruct (includes_key (customProps props) k) eqn:Hinc.
  - apply includes_key_customProps in Hinc as [-> _]. done.
  - destruct (is_internal k) eqn:Hint.
    + destruct (props !! k) as [v|] eqn:Hk.
      * assert (includes_key (customProps props) k = true) as Hc
          by (apply includes_key_customProps; eauto).
        congruence.
      * destruct (bool_decide (k = js "__proto__")); [done|].
        rewrite lookup_delete_None. right.
        rewrite lookup_delete_None. by right.
    + destruct (decide (k = js "className")) as [->|Hcn].
      { rewrite lookup_delete_ne by done. rewrite lookup_delete_eq.
        by destruct (bool_decide (js "className" = js "__proto__")). }
      destruct (decide (k = js "style")) as [->|Hst].
      { rewrite lookup_delete_eq.
        by destruct (bool_decide (js "style" = js "__proto__")). }
      rewrite !lookup_delete_ne by done.
      destruct (decide (k = js "__proto__")) as [->|Hp].
      * by rewrite bool_decide_eq_true_2.
      * by rewrite bool_decide_eq_false_2.
Qed.

(** ** Joining class tokens *)

Lemma append_token_nonempty str x : x ≠ [] → append_token str x ≠ [].
Proof. by destruct str, x. Qed.

Lemma foldl_append_token_nonempty l : ∀ x,
  x ≠ [] → Forall (λ y, y ≠ []) l → foldl append_token x l ≠ [].
Proof.
  induction l as [|y l IH]; intros x Hx Hl; simpl; [done|].
  inversion_clear Hl. apply IH; [|done]. by apply append_token_nonempty.
Qed.

Lemma append_token_assoc str x y :
  x ≠ [] → append_token str (append_token x y)
           = append_token (append_token str x) y.
Proof.
  intros Hx. destruct x as [|c x]; [done|]. destruct str as [|d str]; simpl.
  - done.
  - by rewrite <- app_assoc.
Qed.

Lemma append_token_foldl l : ∀ str x,
  x ≠ [] → Forall (λ y, y ≠ []) l →
  append_token str (foldl append_token x l)
  = foldl append_token (append_token str x) l.
Proof.
  induction l as [|y l IH]; intros str x Hx Hl; simpl; [done|].
  inversion_clear Hl.
  rewrite IH by (by try apply append_token_nonempty).
  by rewrite append_token_assoc.
Qed.

(** Joining a joined group is joining its members one by one. *)
Lemma append_tokens_group str l :
  Forall (λ y, y ≠ []) l →
  match foldl append_token [] l with
  | [] => str
  | c :: x => append_token str (c :: x)
  end = foldl append_token str l.
Proof.
  intros Hl. destruct l as [|y l]; simpl; [done|]. inversion_clear Hl.
  destruct (foldl append_token y l) eqn:Heq.
  - by apply foldl_append_token_nonempty in Heq.
  - rewrite <- Heq, append_token_foldl by done. by destruct str.
Qed.

Lemma join_spaces_foldl l :
  Forall (λ y, y ≠ []) l → join_spaces l = foldl append_token [] l.
Proof.
  destruct l as [|x l]; [done|]. intros Hl. inversion_clear Hl. simpl.
  revert x H. induction l as [|y l IH]; intros x Hx; simpl; [done|].
  inversion_clear H0. destruct x as [|c x]; [done|]. simpl.
  by apply IH.
Qed.

Lemma token_string_nonempty l :
  Forall (λ y, y ≠ []) (omap token_string l).
Proof.
  induction l as [|[| | | |[|c s]| | |] l IH]; simpl; try done.
  by constructor.
Qed.

(** What one class token adds to the string built so far. *)
Lemma clsx_step_token str t :
  is_class_token t →
  (if truthy t
   then match toVal t with [] => str | c :: y => append_token str (c :: y) end
   else str)
  = match token_string t with
    | Some y => append_token str y
    | None => str
    end.
Proof.
  intros [Ht|[[|c s] ->]]; [|done..].
  rewrite Ht. by destruct t as [| | | |[|??]| | |].
Qed.

Lemma toVal_tokens tokens :
  Forall is_class_token tokens →
  toVal (VArray tokens) = foldl append_token [] (omap token_string tokens).
Proof.
  simpl. generalize (@nil N). induction tokens as [|t tokens IH];
    intros str Htok; simpl; [done|].
  inversion_clear Htok. rewrite IH by done.
  rewrite clsx_step_token by done. by destruct (token_string t).
Qed.

(** On class tokens, [clsx] joins in order the base class, the dynamic
    tokens and the incoming class name that are strings and not empty. *)
Lemma clsx_tokens base dyn className :
  is_class_token base →
  Forall is_class_token (tokens_of dyn) →
  is_class_token className →
  clsx [base; dyn; className]
  = join_spaces (omap token_string (base :: tokens_of dyn ++ [className])).
Proof.
  intros Hbase Hdyn Hcn.
  rewrite join_spaces_foldl by apply token_string_nonempty.
  unfold clsx.
  match goal with |- foldl ?f _ _ = _ => set (step := f) end.
  change (foldl step [] [base; dyn; className])
    with (step (step (step [] base) dyn) className).
  assert (∀ str t, is_class_token t →
            step str t = foldl append_token str (omap token_string [t]))
    as Htoken.
  { intros str t Ht. unfold step. rewrite clsx_step_token by done.
    simpl. by destruct (token_string t). }
  assert (∀ str, step str dyn
                 = foldl append_token str (omap token_string (tokens_of dyn)))
    as Hgroup.
  { intros str. destruct dyn as [| | | | |tokens| |];
      try (apply Htoken; by inversion_clear Hdyn).
    unfold step. simpl tokens_of in *. rewrite toVal_tokens by done.
    change (truthy (VArray tokens)) with true. cbv iota.
    apply append_tokens_group, token_string_nonempty. }
  change (base :: tokens_of dyn ++ [className])
    with ([base] ++ tokens_of dyn ++ [className]).
  rewrite !omap_app, !foldl_app.
  by rewrite (Htoken _ className), Hgroup, (Htoken _ base).
Qed.

(** What the class-name step computed. *)
Lemma classes_inv fn bc dc className props cls :
  classes fn bc dc className props = Ok cls →
  ∃ dyn,
    (if truthy dc then call fn dc props else Ok (VArray [])) = Ok dyn
    ∧ cls = VString (cleanClassName (clsx [bc; dyn; className])).
Proof.
  unfold classes, result_bind.
  destruct (if truthy dc then _ else _) as [dyn|]; [|done].
  intros [= <-]. by exists dyn.
Qed.

Lemma object_is_fresh_sound a b : object_is_fresh a b = true → a = b.
Proof.
  destruct a, b; simpl; try done; by intros ->%bool_decide_eq_true.
Qed.

Lemma clsx_undefined_head args : clsx (VUndefined :: args) = clsx args.
Proof. reflexivity. Qed.

Lemma clsx_empty_array_head args : clsx (VArray [] :: args) = clsx args.
Proof. reflexivity. Qed.

(** The entries that the render function writes last. *)
Lemma config_className (ref ms cls : value) (dp : gmap jsstring value) :
  (<[js "ref" := ref]> (<[js "style" := ms]> (<[js "className" := cls]> dp)))
    !! js "className" = Some cls.
Proof.
  rewrite lookup_insert_ne by done. rewrite lookup_insert_ne by done.
  by rewrite lookup_insert_eq.
Qed.

Lemma config_style (ref ms cls : value) (dp : gmap jsstring value) :
  (<[js "ref" := ref]> (<[js "style" := ms]> (<[js "className" := cls]> dp)))
    !! js "style" = Some ms.
Proof. rewrite lookup_insert_ne by done. by rewrite lookup_insert_eq. Qed.

(** ** The rendered element *)

Section Claims.

Variable fn : N → value → result value.
Variable object_is : value → value → bool.

(** Props and styles are not mutated between renders: what [Object.is]
    identifies is one value. *)
Hypothesis object_is_sound : ∀ a b, object_is a b = true → a = b.

Implicit Types (tag : jsstring) (options css ref : value).
Implicit Types (props : gmap jsstring value).
Implicit Types (history : list (gmap jsstring value * value)).

(** C1. No key that begins with the marker ['$'] is among the props the
    rendered element receives: the internal props of the incoming bag are
    left out, and the three entries the render adds carry other names. *)
Theorem internal_props_not_forwarded
    tag options css history props ref el key :
  render fn object_is tag options css history props ref = Ok el →
  is_internal key = true →
  el_config el !! key = None.
Proof using object_is_sound.
  intros Hrender Hkey.
  apply render_inv in Hrender
    as (bc & dc & dcss & cls & rc & _ & _ & _ & _ & _ & ->); [|done].
  destruct (is_internal_not_reserved key Hkey) as (Hcn & Hst & Href).
  destruct (domProps_lookup props) as (m & -> & Hm).
  simpl. rewrite !lookup_insert_ne by done.
  rewrite spread_empty_object, Hm. by rewrite Hkey.
Qed.

(** C2. The final class name has no run of two or more white-space
    characters and no white space at its start or end, whatever the
    base class, the result of the dynamic-class function and the incoming
    [className] are. *)
Theorem final_class_name_normalized
    tag options css history props ref el :
  render fn object_is tag options css history props ref = Ok el →
  ∃ s, el_config el !! js "className" = Some (VString s)
       ∧ no_ws_run s ∧ no_leading_ws s ∧ no_trailing_ws s.
Proof using object_is_sound.
  intros Hrender.
  apply render_inv in Hrender
    as (bc & dc & dcss & cls & rc & _ & _ & _ & Hcls & _ & ->); [|done].
  apply classes_inv in Hcls as (dyn & _ & ->).
  eexists. split; [|apply cleanClassName_normalized].
  apply config_className.
Qed.

(** C4. The final style is the resolved CSS merged with the incoming
    [style]: on a key that both have, the incoming value wins; every
    other key keeps the value of the one that has it. *)
Theorem final_style_incoming_wins
    tag options css history props ref el :
  render fn object_is tag options css history props ref = Ok el →
  ∃ dcss rc m,
    dynamicCss options css = Ok dcss
    ∧ resolvedCss fn dcss (VObject props) = Ok rc
    ∧ el_config el !! js "style" = Some (VObject m)
    ∧ ∀ k, m !! k
           = spec_style (own_props rc)
               (own_props (default VUndefined (props !! js "style"))) k.
Proof using object_is_sound.
  intros Hrender.
  apply render_inv in Hrender
    as (bc & dc & dcss & cls & rc & _ & _ & Hdcss & _ & Hrc & ->);
    [|done].
  destruct (mergedStyles_lookup rc
              (default VUndefined (props !! js "style")))
    as (m & Hm & Hlook).
  exists dcss, rc, m. repeat split; try done.
  simpl. by rewrite config_style, Hm.
Qed.

(** C5. When [options] is a structured object the resolved CSS is its
    [css] field, and the second positional parameter has no effect on the
    rendered element. *)
Theorem css_parameter_ignored_for_object_options
    tag options css1 css2 history1 history2 props ref :
  typeof options = TyObject →
  dynamicCss options css1 = member_opt options (js "css")
  ∧ render fn object_is tag options css1 history1 props ref
    = render fn object_is tag options css2 history2 props ref.
Proof using object_is_sound.
  intros Hty. split; [unfold dynamicCss; by rewrite Hty|].
  rewrite !render_resolution by done.
  unfold resolution, result_map, dynamicCss.
  unfold mbind, result_mbind, result_bind. rewrite Hty.
  destruct (baseClass options) as [bc|]; [|done].
  destruct (dynamicClasses options) as [dc|]; [|done].
  destruct (member_opt options (js "css")) as [dcss|]; [|done].
  destruct (classes fn bc dc _ _) as [cls|]; [|done].
  by destruct (resolvedCss fn dcss _) as [rc|].
Qed.

(** C6, at [options = null].  [typeof null] is ["object"], so the base
    class is read as [options.base], and that read throws: every render
    of the component fails with a TypeError. *)
Theorem null_options_render_throws tag css history props ref :
  render fn object_is tag VNull css history props ref = Throw TypeError.
Proof.
  assert (∀ p r, render_with fn object_is tag VNull css [] p r
                 = Throw TypeError) as Hmount.
  { intros p r. by rewrite render_with_mount. }
  unfold render.
  assert (cells_after fn object_is tag VNull css history = []) as ->.
  { induction history as [|[p r] history IH] using rev_ind; [done|].
    unfold cells_after in *. rewrite foldl_snoc, IH.
    unfold commit. cbn [fst snd]. by rewrite Hmount. }
  by rewrite Hmount.
Qed.

(** An [options] that is a number, a boolean or absent resolves to no
    base class, no dynamic classes and the [css] parameter: the component
    renders as if [options] had been omitted. *)
Lemma unrecognized_options_as_omitted
    tag options css history1 history2 props ref :
  typeof options = TyUndefined ∨ typeof options = TyBoolean
  ∨ typeof options = TyNumber →
  baseClass options = Ok VUndefined
  ∧ dynamicClasses options = Ok VUndefined
  ∧ dynamicCss options css = Ok css
  ∧ render fn object_is tag options css history1 props ref
    = render fn object_is tag VUndefined css history2 props ref.
Proof using object_is_sound.
  intros Hty.
  assert (baseClass options = Ok VUndefined
          ∧ dynamicClasses options = Ok VUndefined
          ∧ dynamicCss options css = Ok css) as (Hbc & Hdc & Hdcss).
  { unfold baseClass, dynamicClasses, dynamicCss.
    by destruct Hty as [->|[->| ->]]. }
  repeat split; try done.
  rewrite !render_resolution by done.
  unfold resolution, result_map, mbind, result_mbind, result_bind.
  rewrite Hbc, Hdc, Hdcss. simpl.
  by destruct (resolvedCss fn css _).
Qed.

(** C7. What a component renders for given props and ref does not depend
    on what it rendered before: two renders with the same [options],
    [css] and props give the same element (class name, style and
    forwarded props), or fail alike. *)
Theorem render_deterministic
    tag options css history1 history2 props ref :
  render fn object_is tag options css history1 props ref
  = render fn object_is tag options css history2 props ref.
Proof using object_is_sound. by rewrite !render_resolution. Qed.

(** C8, as amended.  With [options] and [css] both omitted (a component
    made from the tag alone) and props that carry no [className], no
    [style] and no own ["__proto__"] entry, the element receives the empty
    class name and an empty style object, and every incoming prop that is
    not internal arrives under its key with its value.  (React hands a
    [forwardRef] render function props without a [ref] entry.) *)
Theorem omitted_options_pass_through tag history props ref :
  props !! js "className" = None →
  props !! js "style" = None →
  props !! js "__proto__" = None →
  props !! js "ref" = None →
  ∃ el,
    render fn object_is tag VUndefined VUndefined history props ref = Ok el
    ∧ el_type el = tag
    ∧ el_config el !! js "className" = Some (VString [])
    ∧ el_config el !! js "style" = Some (VObject ∅)
    ∧ ∀ k v, props !! k = Some v → is_internal k = false →
             el_config el !! k = Some v.
Proof using object_is_sound.
  intros Hcn Hst Hproto Href. rewrite render_resolution by done.
  unfold resolution, result_map, mbind, result_mbind, result_bind.
  rewrite Hcn, Hst. simpl.
  eexists. split; [done|]. split; [done|]. simpl.
  split; [by rewrite config_className|].
  split.
  { rewrite config_style. unfold mergedStyles, spread. simpl.
    by rewrite !(left_id_L ∅ (∪)). }
  intros k v Hk Hint.
  destruct (domProps_lookup props) as (m & Hm & Hlook).
  rewrite Hm, spread_empty_object.
  assert (k ≠ js "className") by congruence.
  assert (k ≠ js "style") by congruence.
  assert (k ≠ js "__proto__") by congruence.
  assert (k ≠ js "ref") by congruence.
  rewrite !lookup_insert_ne by done.
  rewrite Hlook, Hint. by repeat case_decide.
Qed.

(** C9. When [options] is a function it is the dynamic-class function:
    there is no base class, the function is called with the whole of the
    incoming props, and what it returns is the class source that is
    joined with the incoming [className]. *)
Theorem function_options_sole_class_source
    tag options css history props ref el :
  typeof options = TyFunction →
  render fn object_is tag options css history props ref = Ok el →
  baseClass options = Ok VUndefined
  ∧ dynamicClasses options = Ok options
  ∧ ∃ dyn,
      call fn options (VObject props) = Ok dyn
      ∧ el_config el !! js "className"
        = Some (VString
                  (cleanClassName
                     (clsx [dyn;
                            default VUndefined (props !! js "className")]))).
Proof using object_is_sound.
  intros Hty Hrender.
  destruct options as [| | | | | | |id]; try done.
  apply render_inv in Hrender
    as (bc & dc & dcss & cls & rc & Hbc & Hdc & _ & Hcls & _ & ->);
    [|done].
  unfold baseClass, dynamicClasses in Hbc, Hdc. simpl in Hbc, Hdc.
  simplify_eq.
  apply classes_inv in Hcls as (dyn & Hdyn & ->). simpl in Hdyn.
  split; [done|]. split; [done|]. exists dyn. split; [done|].
  simpl. by rewrite config_className, clsx_undefined_head.
Qed.

(** C10. The element always receives a [className] entry and a [style]
    entry of the render's own making: the final class name, a string,
    and the merged style, an object.  The incoming [className] and
    [style] are taken out of the rest props; with no configuration at all
    the entries are still the cleaned class name and a copy of the
    style, not the incoming values as they came. *)
Theorem className_and_style_always_computed
    tag options css history props ref el :
  render fn object_is tag options css history props ref = Ok el →
  ∃ s m,
    el_config el !! js "className" = Some (VString s)
    ∧ el_config el !! js "style" = Some (VObject m)
    ∧ (∃ bc dc dyn dcss rc,
         baseClass options = Ok bc
         ∧ dynamicClasses options = Ok dc
         ∧ (if truthy dc then call fn dc (VObject props)
            else Ok (VArray [])) = Ok dyn
         ∧ dynamicCss options css = Ok dcss
         ∧ resolvedCss fn dcss (VObject props) = Ok rc
         ∧ s = cleanClassName
                 (clsx [bc; dyn;
                        default VUndefined (props !! js "className")])
         ∧ m = spread (spread ∅ rc)
                 (default VUndefined (props !! js "style")))
    ∧ (options = VUndefined → css = VUndefined →
       s = cleanClassName
             (clsx [default VUndefined (props !! js "className")])
       ∧ m = own_props (default VUndefined (props !! js "style"))).
Proof using object_is_sound.
  intros Hrender.
  apply render_inv in Hrender
    as (bc & dc & dcss & cls & rc & Hbc & Hdc & Hdcss & Hcls & Hrc & ->);
    [|done].
  apply classes_inv in Hcls as (dyn & Hdyn & ->).
  do 2 eexists. simpl.
  split; [apply config_className|]. split; [apply config_style|].
  split; [by exists bc, dc, dyn, dcss, rc|].
  intros -> ->.
  unfold baseClass, dynamicClasses, dynamicCss in Hbc, Hdc, Hdcss.
  simpl in Hbc, Hdc, Hdcss. simplify_eq.
  unfold resolvedCss in Hrc. simpl in Hdyn, Hrc. simplify_eq.
  split; [done|].
  unfold spread. simpl. by rewrite !(right_id_L ∅ (∪)).
Qed.

End Claims.

(** ** The statements at concrete components *)

Lemma internal_props_not_forwarded_witness :
  (∀ a b, object_is_fresh a b = true → a = b)
  ∧ render fn_active object_is_fresh (js "div") (str "foo") VUndefined
      label_history label_props VNull = Ok label_element
  ∧ is_internal (js "$size") = true
  ∧ el_config label_element !! js "$size" = None.
Proof.
  assert (render fn_active object_is_fresh (js "div") (str "foo") VUndefined
            label_history label_props VNull = Ok label_element) as Hrender
    by (vm_compute; reflexivity).
  assert (is_internal (js "$size") = true) as Hkey by reflexivity.
  split; [exact object_is_fresh_sound|]. split; [exact Hrender|].
  split; [exact Hkey|].
  exact (internal_props_not_forwarded fn_active object_is_fresh
           object_is_fresh_sound _ _ _ _ _ _ _ _ Hrender Hkey).
Defined.

Lemma final_class_name_normalized_witness :
  (∀ a b, object_is_fresh a b = true → a = b)
  ∧ render fn_active object_is_fresh (js "div") (str "foo") VUndefined
      label_history label_props VNull = Ok label_element
  ∧ ∃ s, el_config label_element !! js "className" = Some (VString s)
         ∧ no_ws_run s ∧ no_leading_ws s ∧ no_trailing_ws s.
Proof.
  assert (render fn_active object_is_fresh (js "div") (str "foo") VUndefined
            label_history label_props VNull = Ok label_element) as Hrender
    by (vm_compute; reflexivity).
  split; [exact object_is_fresh_sound|]. split; [exact Hrender|].
  exact (final_class_name_normalized fn_active object_is_fresh
           object_is_fresh_sound _ _ _ _ _ _ _ Hrender).
Defined.

Lemma final_style_incoming_wins_witness :
  (∀ a b, object_is_fresh a b = true → a = b)
  ∧ render fn_active object_is_fresh (js "div") toggle_options VUndefined
      [(toggle_off_props, VNull)] toggle_on_props VNull
    = Ok toggle_on_element
  ∧ ∃ dcss rc m,
      dynamicCss toggle_options VUndefined = Ok dcss
      ∧ resolvedCss fn_active dcss (VObject toggle_on_props) = Ok rc
      ∧ el_config toggle_on_element !! js "style" = Some (VObject m)
      ∧ ∀ k, m !! k
             = spec_style (own_props rc)
                 (own_props
                    (default VUndefined (toggle_on_props !! js "style"))) k.
Proof.
  assert (render fn_active object_is_fresh (js "div") toggle_options
            VUndefined [(toggle_off_props, VNull)] toggle_on_props VNull
          = Ok toggle_on_element) as Hrender by (vm_compute; reflexivity).
  split; [exact object_is_fresh_sound|]. split; [exact Hrender|].
  exact (final_style_incoming_wins fn_active object_is_fresh
           object_is_fresh_sound _ _ _ _ _ _ _ Hrender).
Defined.

Lemma css_parameter_ignored_for_object_options_witness :
  (∀ a b, object_is_fresh a b = true → a = b)
  ∧ typeof toggle_options = TyObject
  ∧ dynamicCss toggle_options VUndefined
    = member_opt toggle_options (js "css")
  ∧ render fn_active object_is_fresh (js "div") toggle_options VUndefined
      [] toggle_on_props VNull
    = render fn_active object_is_fresh (js "div") toggle_options
        (VObject (obj [("color", str "green")]))
        [(toggle_off_props, VNull)] toggle_on_props VNull.
Proof.
  split; [exact object_is_fresh_sound|]. split; [reflexivity|].
  exact (css_parameter_ignored_for_object_options fn_active object_is_fresh
           object_is_fresh_sound (js "div") toggle_options VUndefined
           (VObject (obj [("color", str "green")]))
           [] [(toggle_off_props, VNull)] toggle_on_props VNull eq_refl).
Defined.

Lemma render_deterministic_witness :
  (∀ a b, object_is_fresh a b = true → a = b)
  ∧ render fn_active object_is_fresh (js "div") (str "foo") VUndefined
      label_history label_props VNull
    = render fn_active object_is_fresh (js "div") (str "foo") VUndefined
        [] label_props VNull.
Proof.
  split; [exact object_is_fresh_sound|].
  exact (render_deterministic fn_active object_is_fresh
           object_is_fresh_sound (js "div") (str "foo") VUndefined
           label_history [] label_props VNull).
Defined.

Lemma omitted_options_pass_through_witness :
  (∀ a b, object_is_fresh a b = true → a = b)
  ∧ plain_props !! js "className" = None
  ∧ plain_props !! js "style" = None
  ∧ plain_props !! js "__proto__" = None
  ∧ plain_props !! js "ref" = None
  ∧ ∃ el,
      render fn_active object_is_fresh (js "div") VUndefined VUndefined
        label_history plain_props VNull = Ok el
      ∧ el_type el = js "div"
      ∧ el_config el !! js "className" = Some (VString [])
      ∧ el_config el !! js "style" = Some (VObject ∅)
      ∧ ∀ k v, plain_props !! k = Some v → is_internal k = false →
               el_config el !! k = Some v.
Proof.
  assert (plain_props !! js "className" = None) as Hcn by reflexivity.
  assert (plain_props !! js "style" = None) as Hst by reflexivity.
  assert (plain_props !! js "__proto__" = None) as Hproto by reflexivity.
  assert (plain_props !! js "ref" = None) as Href by reflexivity.
  split; [exact object_is_fresh_sound|]. split; [exact Hcn|].
  split; [exact Hst|]. split; [exact Hproto|]. split; [exact Href|].
  exact (omitted_options_pass_through fn_active object_is_fresh
           object_is_fresh_sound (js "div") label_history plain_props VNull
           Hcn Hst Hproto Href).
Defined.

(** C8, as it was stated, fails twice.  With [options] omitted and a
    [css] given, as in [createComponent('div', undefined, { color: "red" })],
    the style is not empty; and props without [className] and [style]
    that have an own ["__proto__"] entry lose it, though its key does not
    begin with ['$']. *)
Lemma omitted_options_counterexample :
  (plain_props !! js "className" = None
   ∧ plain_props !! js "style" = None
   ∧ render fn_active object_is_fresh (js "div") VUndefined
       (VObject (obj [("color", str "red")])) [] plain_props VNull
     = Ok tinted_element
   ∧ el_config tinted_element !! js "style" ≠ Some (VObject ∅))
  ∧ (proto_props !! js "className" = None
     ∧ proto_props !! js "style" = None
     ∧ render fn_active object_is_fresh (js "div") VUndefined VUndefined
         [] proto_props VNull = Ok proto_element
     ∧ proto_props !! js "__proto__" = Some (VNumber 1)
     ∧ is_internal (js "__proto__") = false
     ∧ el_config proto_element !! js "__proto__" ≠ Some (VNumber 1)).
Proof.
  split.
  - do 2 (split; [reflexivity|]). split; [vm_compute; reflexivity|].
    vm_compute. discriminate.
  - do 2 (split; [reflexivity|]). split; [vm_compute; reflexivity|].
    do 2 (split; [reflexivity|]). vm_compute. discriminate.
Qed.

Lemma function_options_sole_class_source_witness :
  (∀ a b, object_is_fresh a b = true → a = b)
  ∧ typeof (VFunction 0) = TyFunction
  ∧ render fn_active object_is_fresh (js "div") (VFunction 0) VUndefined
      [] switch_props VNull = Ok switch_element
  ∧ baseClass (VFunction 0) = Ok VUndefined
  ∧ dynamicClasses (VFunction 0) = Ok (VFunction 0)
  ∧ ∃ dyn,
      call fn_active (VFunction 0) (VObject switch_props) = Ok dyn
      ∧ el_config switch_element !! js "className"
        = Some (VString
                  (cleanClassName
                     (clsx [dyn;
                            default VUndefined
                              (switch_props !! js "className")]))).
Proof.
  assert (render fn_active object_is_fresh (js "div") (VFunction 0)
            VUndefined [] switch_props VNull = Ok switch_element)
    as Hrender by (vm_compute; reflexivity).
  split; [exact object_is_fresh_sound|]. split; [reflexivity|].
  split; [exact Hrender|].
  exact (function_options_sole_class_source fn_active object_is_fresh
           object_is_fresh_sound (js "div") (VFunction 0) VUndefined
           [] switch_props VNull switch_element eq_refl Hrender).
Defined.

Lemma className_and_style_always_computed_witness :
  (∀ a b, object_is_fresh a b = true → a = b)
  ∧ render fn_active object_is_fresh (js "div") VUndefined VUndefined
      label_history plain_props VNull = Ok plain_element
  ∧ ∃ s m,
      el_config plain_element !! js "className" = Some (VString s)
      ∧ el_config plain_element !! js "style" = Some (VObject m)
      ∧ (∃ bc dc dyn dcss rc,
           baseClass VUndefined = Ok bc
           ∧ dynamicClasses VUndefined = Ok dc
           ∧ (if truthy dc then call fn_active dc (VObject plain_props)
              else Ok (VArray [])) = Ok dyn
           ∧ dynamicCss VUndefined VUndefined = Ok dcss
           ∧ resolvedCss fn_active dcss (VObject plain_props) = Ok rc
           ∧ s = cleanClassName
                   (clsx [bc; dyn;
                          default VUndefined
                            (plain_props !! js "className")])
           ∧ m = spread (spread ∅ rc)
                   (default VUndefined (plain_props !! js "style")))
      ∧ (VUndefined = VUndefined → VUndefined = VUndefined →
         s = cleanClassName
               (clsx [default VUndefined (plain_props !! js "className")])
         ∧ m = own_props (default VUndefined (plain_props !! js "style"))).
Proof.
  assert (render fn_active object_is_fresh (js "div") VUndefined VUndefined
            label_history plain_props VNull = Ok plain_element) as Hrender
    by (vm_compute; reflexivity).
  split; [exact object_is_fresh_sound|]. split; [exact Hrender|].
  exact (className_and_style_always_computed fn_active object_is_fresh
           object_is_fresh_sound _ _ _ _ _ _ _ Hrender).
Defined.

(* ================================================================== *)
(** * Further properties of the code *)

(** ** cleanClassName *)

Lemma is_space_32 : is_space 32%N = true.
Proof. reflexivity. Qed.

Lemma no_ws_run_tail c s : no_ws_run (c :: s) → no_ws_run s.
Proof. intros H. by apply (no_ws_run_infix [c] s []); rewrite app_nil_r. Qed.

Lemma no_trailing_ws_reverse s :
  no_trailing_ws s → no_leading_ws (reverse s).
Proof.
  intros H c l Heq. apply (H (reverse l) c).
  apply (f_equal reverse) in Heq.
  by rewrite reverse_involutive, reverse_cons in Heq.
Qed.

Lemma trimStart_fixed s : no_leading_ws s → trimStart s = s.
Proof.
  destruct s as [|c s]; [done|]. intros H. simpl.
  by rewrite (H c s eq_refl).
Qed.

Lemma replace_spaces_fixed s : ∀ in_run,
  plain_spaces s → no_ws_run s →
  (in_run = true → no_leading_ws s) →
  replace_spaces in_run s = s.
Proof.
  induction s as [|c s IH]; intros in_run Hplain Hrun Hlead; [done|].
  inversion_clear Hplain as [|?? Hc Hs]. simpl.
  destruct (is_space c) eqn:Hsp.
  - destruct in_run.
    + by rewrite (Hlead eq_refl c s eq_refl) in Hsp.
    + rewrite (Hc eq_refl). f_equal.
      apply IH; [done|by eapply no_ws_run_tail|].
      intros _ b l ->. destruct (is_space b) eqn:Hb; [|done].
      by destruct (Hrun [] c b l eq_refl).
  - f_equal. apply IH; [done|by eapply no_ws_run_tail|done].
Qed.

Lemma replace_spaces_plain s : ∀ in_run,
  plain_spaces (replace_spaces in_run s).
Proof.
  induction s as [|c s IH]; intros in_run; simpl; [constructor|].
  destruct (is_space c) eqn:Hsp.
  - destruct in_run; [apply IH|]. constructor; [done|apply IH].
  - constructor; [congruence|apply IH].
Qed.

Lemma trimStart_spaces s :
  ∃ pre, s = pre ++ trimStart s ∧ Forall (λ c, is_space c = true) pre.
Proof.
  induction s as [|c s (pre & IH & Hpre)]; simpl; [by exists []|].
  destruct (is_space c) eqn:Hc.
  - exists (c :: pre). split; [simpl; by f_equal|by constructor].
  - by exists [].
Qed.

Lemma trimEnd_spaces s :
  ∃ post, s = trimEnd s ++ post ∧ Forall (λ c, is_space c = true) post.
Proof.
  destruct (trimStart_spaces (reverse s)) as (pre & Hpre & Hsp).
  exists (reverse pre). unfold trimEnd. split.
  - rewrite <- reverse_app, <- Hpre. by rewrite reverse_involutive.
  - by apply Forall_reverse.
Qed.

Lemma cleanClassName_plain s : plain_spaces (cleanClassName s).
Proof.
  unfold cleanClassName, trim. set (r := replace_spaces false s).
  destruct (trimStart_spaces r) as (pre & Hpre & _).
  destruct (trimEnd_spaces (trimStart r)) as (post & Hpost & _).
  pose proof (replace_spaces_plain s false) as Hr. fold r in Hr.
  rewrite Hpre, Hpost in Hr. unfold plain_spaces in Hr.
  rewrite !Forall_app in Hr. by destruct Hr as (_ & ? & _).
Qed.

Lemma cleanClassName_stable s :
  plain_spaces s → no_ws_run s → no_leading_ws s → no_trailing_ws s →
  cleanClassName s = s.
Proof.
  intros Hplain Hrun Hlead Htrail. unfold cleanClassName, trim, trimEnd.
  rewrite replace_spaces_fixed by done.
  rewrite (trimStart_fixed s) by done.
  rewrite trimStart_fixed by (by apply no_trailing_ws_reverse).
  apply reverse_involutive.
Qed.

(** X1. A class name that is already clean (single U+0020 between words,
    nothing around them) is returned as it is. *)
Theorem cleanClassName_fixed s :
  plain_spaces s → no_ws_run s → no_leading_ws s → no_trailing_ws s →
  cleanClassName s = s.
Proof. apply cleanClassName_stable. Qed.

(** X2. Cleaning twice is cleaning once. *)
Theorem cleanClassName_idempotent s :
  cleanClassName (cleanClassName s) = cleanClassName s.
Proof.
  destruct (cleanClassName_normalized s) as (Hrun & Hlead & Htrail).
  apply cleanClassName_stable; [apply cleanClassName_plain|done..].
Qed.

(** X3. Whatever white space the input has (tabs, line breaks, no-break
    spaces), the only white space left in the result is U+0020. *)
Theorem cleanClassName_only_plain_spaces s c :
  c ∈ cleanClassName s → is_space c = true → c = 32%N.
Proof.
  intros Hin. pose proof (cleanClassName_plain s) as H.
  unfold plain_spaces in H. rewrite Forall_forall in H. by apply H.
Qed.

(** *** The words of a class name *)

Lemma words_from_spaces post : ∀ w,
  Forall (λ c, is_space c = true) post →
  words_from w post = words_from w [].
Proof.
  induction post as [|c post IH]; intros w Hpost; [done|].
  inversion_clear Hpost as [|?? Hc Hrest]. simpl. rewrite Hc.
  rewrite (IH [] Hrest). by destruct w.
Qed.

Lemma words_from_app_spaces s post : ∀ w,
  Forall (λ c, is_space c = true) post →
  words_from w (s ++ post) = words_from w s.
Proof.
  induction s as [|c s IH]; intros w Hpost; simpl.
  - by apply words_from_spaces.
  - destruct (is_space c); [|by apply IH].
    rewrite (IH [] Hpost). by destruct w.
Qed.

Lemma words_spaces_app pre s :
  Forall (λ c, is_space c = true) pre → words (pre ++ s) = words s.
Proof.
  unfold words. induction pre as [|c pre IH]; intros Hpre; [done|].
  inversion_clear Hpre as [|?? Hc Hrest]. simpl. rewrite Hc. by apply IH.
Qed.

Lemma words_from_replace_spaces s : ∀ in_run w,
  (in_run = true → w = []) →
  words_from w (replace_spaces in_run s) = words_from w s.
Proof.
  induction s as [|c s IH]; intros in_run w Hw; [done|]. simpl.
  destruct (is_space c) eqn:Hc.
  - destruct in_run.
    + rewrite (Hw eq_refl). by apply IH.
    + simpl. rewrite (IH true []) by done. by destruct w.
  - simpl. rewrite Hc. by apply IH.
Qed.

Lemma words_cleanClassName s : words (cleanClassName s) = words s.
Proof.
  unfold cleanClassName, trim. set (r := replace_spaces false s).
  destruct (trimStart_spaces r) as (pre & Hpre & Hsp).
  destruct (trimEnd_spaces (trimStart r)) as (post & Hpost & Hsp').
  transitivity (words r);
    [|by apply (words_from_replace_spaces s false [])].
  rewrite Hpre at 2. rewrite words_spaces_app by done.
  rewrite Hpost at 2. unfold words. by rewrite words_from_app_spaces.
Qed.

Lemma join_spaces_prefix l : ∀ p x,
  foldl (λ acc y, acc ++ 32%N :: y) (p ++ x) l
  = p ++ foldl (λ acc y, acc ++ 32%N :: y) x l.
Proof.
  induction l as [|y l IH]; intros p x; simpl; [done|].
  by rewrite <- IH, <- app_assoc.
Qed.

Lemma join_spaces_cons w l :
  l ≠ [] → join_spaces (w :: l) = w ++ 32%N :: join_spaces l.
Proof.
  destruct l as [|x l]; [done|]. intros _. simpl.
  replace (w ++ 32%N :: x) with ((w ++ [32%N]) ++ x)
    by (by rewrite <- app_assoc).
  by rewrite join_spaces_prefix, <- app_assoc.
Qed.

Lemma join_words_from s : ∀ w,
  plain_spaces s → no_ws_run s → no_trailing_ws s →
  (w = [] → no_leading_ws s) →
  join_spaces (words_from w s) = w ++ s.
Proof.
  induction s as [|c s IH]; intros w Hplain Hrun Htrail Hlead.
  - simpl. rewrite app_nil_r. by destruct w.
  - inversion_clear Hplain as [|?? Hc Hs].
    assert (no_ws_run s) as Hrun' by (by eapply no_ws_run_tail).
    assert (no_trailing_ws s) as Htrail'.
    { intros l d ->. by apply (Htrail (c :: l) d). }
    simpl. destruct (is_space c) eqn:Hsp.
    + assert (no_leading_ws s) as Hlead'.
      { intros b l ->. destruct (is_space b) eqn:Hb; [|done].
        by destruct (Hrun [] c b l eq_refl). }
      destruct w as [|x w].
      { by rewrite (Hlead eq_refl c s eq_refl) in Hsp. }
      assert (s ≠ []) as Hne.
      { intros ->. by rewrite (Htrail [] c eq_refl) in Hsp. }
      pose proof (IH [] Hs Hrun' Htrail' (λ _, Hlead')) as Hjoin.
      simpl in Hjoin. rewrite join_spaces_cons.
      * by rewrite Hjoin, (Hc eq_refl).
      * intros Hnil. rewrite Hnil in Hjoin. by rewrite <- Hjoin in Hne.
    + rewrite IH; [by rewrite <- app_assoc|done..|].
      intros Hnil. by destruct w.
Qed.

Lemma cleanClassName_join_words s :
  cleanClassName s = join_spaces (words s).
Proof.
  destruct (cleanClassName_normalized s) as (Hrun & Hlead & Htrail).
  rewrite <- (words_cleanClassName s). symmetry.
  by apply (join_words_from (cleanClassName s) []);
    [apply cleanClassName_plain|..].
Qed.

(** X4. [cleanClassName] returns the words of its input, in order, with
    one U+0020 between two of them: it is
    [s.split(/\s+/).filter(Boolean).join(' ')]. *)
Theorem cleanClassName_words s :
  cleanClassName s = join_spaces (words s).
Proof. apply cleanClassName_join_words. Qed.

Lemma words_from_nonempty s : ∀ w, w ≠ [] → words_from w s ≠ [].
Proof.
  induction s as [|c s IH]; intros w Hw; simpl; [by destruct w|].
  destruct (is_space c); [by destruct w|]. apply IH. by destruct w.
Qed.

Lemma words_nil_iff s :
  words s = [] ↔ Forall (λ c, is_space c = true) s.
Proof.
  unfold words. induction s as [|c s IH]; simpl; [done|].
  destruct (is_space c) eqn:Hc.
  - rewrite IH. split; [by constructor|by inversion 1].
  - split.
    + intros H. by apply words_from_nonempty in H.
    + inversion_clear 1. congruence.
Qed.

(** X5. The result is the empty string exactly when the input has no
    unit that is not white space. *)
Theorem cleanClassName_empty_iff s :
  cleanClassName s = [] ↔ Forall (λ c, is_space c = true) s.
Proof.
  rewrite <- words_nil_iff. split.
  - intros H. rewrite <- words_cleanClassName, H. done.
  - intros H. pose proof (words_cleanClassName s) as Hw.
    rewrite H in Hw. apply words_nil_iff in Hw.
    destruct (cleanClassName s) as [|c r] eqn:Heq; [done|].
    destruct (cleanClassName_normalized s) as (_ & Hlead & _).
    rewrite Heq in Hlead. inversion_clear Hw.
    by rewrite (Hlead c r eq_refl) in H0.
Qed.

(** ** omitCustomProps *)

Lemma includes_key_strings keys key :
  includes_key (VArray (VString <$> keys)) key = true ↔ key ∈ keys.
Proof.
  unfold includes_key. rewrite existsb_exists. split.
  - intros (v & Hin & Hv). apply list_elem_of_In in Hin.
    apply list_elem_of_fmap in Hin as (k & -> & Hk).
    by apply bool_decide_eq_true in Hv as <-.
  - intros Hk. exists (VString key). split.
    + apply list_elem_of_In, list_elem_of_fmap. by exists key.
    + by apply bool_decide_eq_true.
Qed.

Lemma omitCustomProps_keys_lookup fields keys :
  ∃ m, omitCustomProps (VObject fields) (VArray (VString <$> keys))
       = VObject m
       ∧ ∀ k, m !! k = if decide (k ∈ keys) then None
                       else if decide (k = js "__proto__") then None
                       else fields !! k.
Proof.
  destruct (omitCustomProps_lookup fields (VArray (VString <$> keys)))
    as (m & Hm & Hlook).
  exists m. split; [done|]. intros k. rewrite Hlook.
  destruct (includes_key _ k) eqn:Hinc.
  - apply includes_key_strings in Hinc. by rewrite decide_True.
  - rewrite decide_False.
    + destruct (decide (k = js "__proto__")) as [->|Hp].
      * by rewrite bool_decide_eq_true_2.
      * by rewrite bool_decide_eq_false_2.
    + intros Hk. apply includes_key_strings in Hk. congruence.
Qed.

(** X6. For props without an own ["__proto__"] entry,
    [omitCustomProps(props, keys)] is [props] without the listed keys: a
    listed key is absent from the result, every other property is there
    with its value, and nothing else is. *)
Theorem omitCustomProps_filter fields keys :
  fields !! js "__proto__" = None →
  omitCustomProps (VObject fields) (VArray (VString <$> keys))
  = VObject (filter (λ kv, kv.1 ∉ keys) fields).
Proof.
  intros Hproto.
  destruct (omitCustomProps_keys_lookup fields keys) as (m & -> & Hlook).
  f_equal. apply map_eq. intros k. rewrite Hlook.
  apply option_eq. intros v. rewrite map_lookup_filter_Some. simpl.
  destruct (decide (k ∈ keys)) as [Hk|Hk].
  - split; [done|]. by intros [_ ?].
  - destruct (decide (k = js "__proto__")) as [->|Hp].
    + rewrite Hproto. split; [done|]. by intros [? _].
    + split; [by intros ?|by intros [? _]].
Qed.

(** X7. With nothing to omit, and no own ["__proto__"] entry in [props],
    the result has every property of [props]. *)
Theorem omitCustomProps_nothing_listed fields :
  fields !! js "__proto__" = None →
  omitCustomProps (VObject fields) (VArray []) = VObject fields.
Proof.
  intros Hproto.
  destruct (omitCustomProps_keys_lookup fields []) as (m & Hm & Hlook).
  simpl in Hm. rewrite Hm. f_equal. apply map_eq. intros k.
  rewrite Hlook. rewrite decide_False by apply not_elem_of_nil.
  destruct (decide (k = js "__proto__")) as [->|Hp]; [by rewrite Hproto|].
  done.
Qed.

(** X8. For props without an own ["__proto__"] entry, omitting one list
    of keys and then another is omitting both at once. *)
Theorem omitCustomProps_twice fields keys1 keys2 :
  fields !! js "__proto__" = None →
  omitCustomProps
    (omitCustomProps (VObject fields) (VArray (VString <$> keys1)))
    (VArray (VString <$> keys2))
  = omitCustomProps (VObject fields) (VArray (VString <$> (keys1 ++ keys2))).
Proof.
  intros Hproto.
  destruct (omitCustomProps_keys_lookup fields keys1) as (m1 & -> & Hl1).
  destruct (omitCustomProps_keys_lookup m1 keys2) as (m2 & -> & Hl2).
  destruct (omitCustomProps_keys_lookup fields (keys1 ++ keys2))
    as (m3 & -> & Hl3).
  f_equal. apply map_eq. intros k. rewrite Hl2, Hl3, Hl1.
  destruct (decide (k = js "__proto__")) as [->|Hp].
  { by repeat case_decide. }
  destruct (decide (k ∈ keys1)) as [H1|H1],
    (decide (k ∈ keys2)) as [H2|H2].
  - rewrite decide_True; [done|]. apply elem_of_app. by left.
  - rewrite decide_True; [done|]. apply elem_of_app. by left.
  - rewrite decide_True; [done|]. apply elem_of_app. by right.
  - rewrite decide_False; [done|]. rewrite elem_of_app. by intros [?|?].
Qed.

(** X9. [customProps] holds the own keys of the props that begin with
    ['$'], each once, and no other key. *)
Theorem customProps_lists_internal_keys props :
  ∃ keys,
    customProps props = VArray (VString <$> keys)
    ∧ NoDup keys
    ∧ ∀ key, key ∈ keys ↔ is_internal key = true ∧ is_Some (props !! key).
Proof.
  eexists. split; [reflexivity|]. split.
  - unfold Object_keys. apply NoDup_ListNoDup, List.NoDup_filter.
    apply NoDup_ListNoDup, NoDup_fst_map_to_list.
  - intros key. rewrite <- includes_key_strings.
    apply includes_key_customProps.
Qed.

(** ** The render function *)

Section Render_properties.

Variable fn : N → value → result value.
Variable object_is : value → value → bool.

(** Props and styles are not mutated between renders. *)
Hypothesis object_is_sound : ∀ a b, object_is a b = true → a = b.

Implicit Types (tag : jsstring) (options css ref : value).
Implicit Types (props : gmap jsstring value).
Implicit Types (history : list (gmap jsstring value * value)).

(** X10. The element is of the tag the component was created for and
    carries the forwarded ref, also when the props have a [ref] entry of
    their own. *)
Theorem render_tag_and_ref tag options css history props ref el :
  render fn object_is tag options css history props ref = Ok el →
  el_type el = tag ∧ el_config el !! js "ref" = Some ref.
Proof using object_is_sound.
  intros Hrender.
  apply render_inv in Hrender
    as (bc & dc & dcss & cls & rc & _ & _ & _ & _ & _ & ->); [|done].
  split; [done|]. simpl. by rewrite lookup_insert_eq.
Qed.

(** X11. Whatever the configuration, a prop other than [className],
    [style], [ref] and ["__proto__"] reaches the element with its value
    when its key is not internal, and the element has no other entry
    beside [className], [style] and [ref]: an own ["__proto__"] entry of
    the props is not forwarded. *)
Theorem render_forwards_rest_props
    tag options css history props ref el key :
  render fn object_is tag options css history props ref = Ok el →
  key ≠ js "className" → key ≠ js "style" → key ≠ js "ref" →
  el_config el !! key
  = if is_internal key then None
    else if decide (key = js "__proto__") then None
    else props !! key.
Proof using object_is_sound.
  intros Hrender Hcn Hst Href.
  apply render_inv in Hrender
    as (bc & dc & dcss & cls & rc & _ & _ & _ & _ & _ & ->); [|done].
  destruct (domProps_lookup props) as (m & -> & Hm).
  simpl. rewrite !lookup_insert_ne by done.
  rewrite spread_empty_object, Hm.
  destruct (is_internal key); [done|].
  rewrite (decide_False (P := key = js "className")) by done.
  by rewrite (decide_False (P := key = js "style")).
Qed.

Lemma render_class_call_throws
    tag options css history props ref dc e :
  dynamicClasses options = Ok dc →
  truthy dc = true →
  call fn dc (VObject props) = Throw e →
  render fn object_is tag options css history props ref = Throw e.
Proof using object_is_sound.
  intros Hdc Htruthy Hcall. rewrite render_resolution by done.
  unfold resolution, result_map, mbind, result_mbind, result_bind.
  assert (∃ bc, baseClass options = Ok bc) as [bc ->].
  { unfold baseClass, dynamicClasses in *.
    destruct options; simpl in *; simplify_eq; by eexists. }
  rewrite Hdc.
  assert (∃ dcss, dynamicCss options css = Ok dcss) as [dcss ->].
  { unfold dynamicCss. destruct options; simpl; by eexists. }
  unfold classes, result_bind. by rewrite Htruthy, Hcall.
Qed.

(** X12. An [options] object whose [classes] is something truthy that is
    not a function makes every render throw a TypeError: the render calls
    it. *)
Theorem non_callable_classes_throws
    tag fields css history props ref v :
  fields !! js "classes" = Some v →
  truthy v = true →
  typeof v ≠ TyFunction →
  render fn object_is tag (VObject fields) css history props ref
  = Throw TypeError.
Proof using object_is_sound.
  intros Hv Htruthy Hty.
  apply (render_class_call_throws _ _ _ _ _ _ v); [|done|].
  - unfold dynamicClasses. simpl. by rewrite Hv.
  - by destruct v.
Qed.

(** X13. What the dynamic-class function throws comes out of the render:
    nothing is caught. *)
Theorem class_function_error_propagates
    tag options css history props ref dc e :
  dynamicClasses options = Ok dc →
  truthy dc = true →
  call fn dc (VObject props) = Throw e →
  render fn object_is tag options css history props ref = Throw e.
Proof using object_is_sound. apply render_class_call_throws. Qed.

(** X14. When the CSS source is a function and it throws, the render
    throws. *)
Theorem css_function_error_propagates
    tag options css history props ref dcss e :
  dynamicCss options css = Ok dcss →
  typeof dcss = TyFunction →
  call fn dcss (VObject props) = Throw e →
  ∃ e', render fn object_is tag options css history props ref = Throw e'.
Proof using object_is_sound.
  intros Hdcss Hty Hcall. rewrite render_resolution by done.
  unfold resolution, result_map, mbind, result_mbind, result_bind.
  destruct (baseClass options) as [bc|]; [|by eexists].
  destruct (dynamicClasses options) as [dc|]; [|by eexists].
  rewrite Hdcss.
  destruct (classes fn bc dc _ _) as [cls|]; [|by eexists].
  unfold resolvedCss. rewrite Hty, Hcall. by eexists.
Qed.

(** X15. A component whose configuration holds no function renders every
    props bag: with [options] other than [null], no dynamic-class function
    and a CSS source that is not a function, no render throws. *)
Theorem static_configuration_renders
    tag options css history props ref dc dcss :
  options ≠ VNull →
  dynamicClasses options = Ok dc →
  truthy dc = false →
  dynamicCss options css = Ok dcss →
  typeof dcss ≠ TyFunction →
  ∃ el, render fn object_is tag options css history props ref = Ok el.
Proof using object_is_sound.
  intros Hnull Hdc Hfalsy Hdcss Hty. rewrite render_resolution by done.
  unfold resolution, result_map, mbind, result_mbind, result_bind.
  assert (∃ bc, baseClass options = Ok bc) as [bc ->].
  { unfold baseClass. destruct options; simpl; try done; by eexists. }
  rewrite Hdc, Hdcss. unfold classes, result_bind. rewrite Hfalsy.
  unfold resolvedCss.
  destruct (typeof dcss) eqn:Hd; try done; by eexists.
Qed.

(** X16. A CSS source that is a function is called with the whole of the
    incoming props (internal props, [className] and [style] included), and
    the incoming [style] is merged over what it returns. *)
Theorem css_function_receives_props
    tag options css history props ref el dcss :
  render fn object_is tag options css history props ref = Ok el →
  dynamicCss options css = Ok dcss →
  typeof dcss = TyFunction →
  ∃ rc,
    call fn dcss (VObject props) = Ok rc
    ∧ el_config el !! js "style"
      = Some (mergedStyles rc (default VUndefined (props !! js "style"))).
Proof using object_is_sound.
  intros Hrender Hdcss Hty.
  apply render_inv in Hrender
    as (bc & dc & dcss' & cls & rc & _ & _ & Hdcss' & _ & Hrc & ->);
    [|done].
  assert (dcss' = dcss) as -> by congruence.
  unfold resolvedCss in Hrc. rewrite Hty in Hrc.
  exists rc. split; [done|]. simpl. by rewrite config_style.
Qed.

End Render_properties.

(** ** The further statements at concrete inputs *)

Lemma cleanClassName_fixed_witness :
  plain_spaces (js "foo bar")
  ∧ no_ws_run (js "foo bar")
  ∧ no_leading_ws (js "foo bar")
  ∧ no_trailing_ws (js "foo bar")
  ∧ cleanClassName (js "foo bar") = js "foo bar".
Proof.
  pose proof (cleanClassName_plain (js "foo bar")) as Hplain.
  destruct (cleanClassName_normalized (js "foo bar"))
    as (Hrun & Hlead & Htrail).
  change (cleanClassName (js "foo bar")) with (js "foo bar") in *.
  split; [exact Hplain|]. split; [exact Hrun|]. split; [exact Hlead|].
  split; [exact Htrail|].
  exact (cleanClassName_fixed (js "foo bar") Hplain Hrun Hlead Htrail).
Defined.

Lemma cleanClassName_only_plain_spaces_witness :
  32%N ∈ cleanClassName [97%N; 9%N; 10%N; 98%N]
  ∧ is_space 32%N = true
  ∧ 32%N = 32%N.
Proof.
  assert (32%N ∈ cleanClassName [97%N; 9%N; 10%N; 98%N]) as Hin
    by (vm_compute; right; left).
  split; [exact Hin|]. split; [reflexivity|].
  exact (cleanClassName_only_plain_spaces _ _ Hin eq_refl).
Defined.

Lemma render_tag_and_ref_witness :
  (∀ a b, object_is_fresh a b = true → a = b)
  ∧ render fn_theme object_is_fresh (js "span") (str "foo") (VFunction 1)
      [] themed_props VNull = Ok themed_element
  ∧ el_type themed_element = js "span"
  ∧ el_config themed_element !! js "ref" = Some VNull.
Proof.
  assert (render fn_theme object_is_fresh (js "span") (str "foo")
            (VFunction 1) [] themed_props VNull = Ok themed_element)
    as Hrender by (vm_compute; reflexivity).
  split; [exact object_is_fresh_sound|]. split; [exact Hrender|].
  exact (render_tag_and_ref fn_theme object_is_fresh object_is_fresh_sound
           _ _ _ _ _ _ _ Hrender).
Defined.

Lemma render_forwards_rest_props_witness :
  (∀ a b, object_is_fresh a b = true → a = b)
  ∧ render fn_active object_is_fresh (js "div") VUndefined VUndefined
      [] proto_props VNull = Ok proto_element
  ∧ (js "id" ≠ js "className" ∧ js "id" ≠ js "style" ∧ js "id" ≠ js "ref"
     ∧ el_config proto_element !! js "id" = Some (str "x"))
  ∧ (js "__proto__" ≠ js "className" ∧ js "__proto__" ≠ js "style"
     ∧ js "__proto__" ≠ js "ref"
     ∧ el_config proto_element !! js "__proto__" = None).
Proof.
  assert (render fn_active object_is_fresh (js "div") VUndefined VUndefined
            [] proto_props VNull = Ok proto_element)
    as Hrender by (vm_compute; reflexivity).
  assert (js "id" ≠ js "className") as Hcn by (vm_compute; discriminate).
  assert (js "id" ≠ js "style") as Hst by (vm_compute; discriminate).
  assert (js "id" ≠ js "ref") as Href by (vm_compute; discriminate).
  assert (js "__proto__" ≠ js "className") as Pcn
    by (vm_compute; discriminate).
  assert (js "__proto__" ≠ js "style") as Pst by (vm_compute; discriminate).
  assert (js "__proto__" ≠ js "ref") as Pref by (vm_compute; discriminate).
  split; [exact object_is_fresh_sound|]. split; [exact Hrender|]. split.
  - split; [exact Hcn|]. split; [exact Hst|]. split; [exact Href|].
    exact (render_forwards_rest_props fn_active object_is_fresh
             object_is_fresh_sound _ _ _ _ _ _ _ (js "id")
             Hrender Hcn Hst Href).
  - split; [exact Pcn|]. split; [exact Pst|]. split; [exact Pref|].
    exact (render_forwards_rest_props fn_active object_is_fresh
             object_is_fresh_sound _ _ _ _ _ _ _ (js "__proto__")
             Hrender Pcn Pst Pref).
Defined.

Lemma non_callable_classes_throws_witness :
  (∀ a b, object_is_fresh a b = true → a = b)
  ∧ obj [("classes", str "big")] !! js "classes" = Some (str "big")
  ∧ truthy (str "big") = true
  ∧ typeof (str "big") ≠ TyFunction
  ∧ render fn_theme object_is_fresh (js "span")
      (VObject (obj [("classes", str "big")])) VUndefined
      [] unthemed_props VNull = Throw TypeError.
Proof.
  assert (typeof (str "big") ≠ TyFunction) as Hty by discriminate.
  split; [exact object_is_fresh_sound|]. do 2 (split; [reflexivity|]).
  split; [exact Hty|].
  exact (non_callable_classes_throws fn_theme object_is_fresh
           object_is_fresh_sound (js "span") (obj [("classes", str "big")])
           VUndefined [] unthemed_props VNull (str "big")
           eq_refl eq_refl Hty).
Defined.

Lemma class_function_error_propagates_witness :
  (∀ a b, object_is_fresh a b = true → a = b)
  ∧ dynamicClasses (VFunction 0) = Ok (VFunction 0)
  ∧ truthy (VFunction 0) = true
  ∧ call fn_guard (VFunction 0) (VObject unthemed_props)
    = Throw (Thrown (str "no theme"))
  ∧ render fn_guard object_is_fresh (js "span") (VFunction 0) VUndefined
      [(themed_props, VNull)] unthemed_props VNull
    = Throw (Thrown (str "no theme")).
Proof.
  split; [exact object_is_fresh_sound|]. do 3 (split; [reflexivity|]).
  exact (class_function_error_propagates fn_guard object_is_fresh
           object_is_fresh_sound (js "span") (VFunction 0) VUndefined
           [(themed_props, VNull)] unthemed_props VNull (VFunction 0)
           (Thrown (str "no theme")) eq_refl eq_refl eq_refl).
Defined.

Lemma css_function_error_propagates_witness :
  (∀ a b, object_is_fresh a b = true → a = b)
  ∧ dynamicCss (str "foo") (VFunction 1) = Ok (VFunction 1)
  ∧ typeof (VFunction 1) = TyFunction
  ∧ call fn_theme (VFunction 1) (VObject unthemed_props) = Throw TypeError
  ∧ ∃ e', render fn_theme object_is_fresh (js "span") (str "foo")
            (VFunction 1) [(themed_props, VNull)] unthemed_props VNull
          = Throw e'.
Proof.
  split; [exact object_is_fresh_sound|]. do 3 (split; [reflexivity|]).
  exact (css_function_error_propagates fn_theme object_is_fresh
           object_is_fresh_sound (js "span") (str "foo") (VFunction 1)
           [(themed_props, VNull)] unthemed_props VNull (VFunction 1)
           TypeError eq_refl eq_refl eq_refl).
Defined.

Lemma static_configuration_renders_witness :
  (∀ a b, object_is_fresh a b = true → a = b)
  ∧ str "foo" ≠ VNull
  ∧ dynamicClasses (str "foo") = Ok VUndefined
  ∧ truthy VUndefined = false
  ∧ dynamicCss (str "foo") (VObject (obj [("color", str "red")]))
    = Ok (VObject (obj [("color", str "red")]))
  ∧ typeof (VObject (obj [("color", str "red")])) ≠ TyFunction
  ∧ ∃ el, render fn_theme object_is_fresh (js "span") (str "foo")
            (VObject (obj [("color", str "red")]))
            [] themed_props VNull = Ok el.
Proof.
  assert (str "foo" ≠ VNull) as Hnull by discriminate.
  assert (typeof (VObject (obj [("color", str "red")])) ≠ TyFunction)
    as Hty by discriminate.
  split; [exact object_is_fresh_sound|]. split; [exact Hnull|].
  do 3 (split; [reflexivity|]). split; [exact Hty|].
  exact (static_configuration_renders fn_theme object_is_fresh
           object_is_fresh_sound (js "span") (str "foo")
           (VObject (obj [("color", str "red")])) [] themed_props VNull
           VUndefined (VObject (obj [("color", str "red")]))
           Hnull eq_refl eq_refl eq_refl Hty).
Defined.

Lemma css_function_receives_props_witness :
  (∀ a b, object_is_fresh a b = true → a = b)
  ∧ render fn_theme object_is_fresh (js "span") (str "foo") (VFunction 1)
      [] themed_props VNull = Ok themed_element
  ∧ dynamicCss (str "foo") (VFunction 1) = Ok (VFunction 1)
  ∧ typeof (VFunction 1) = TyFunction
  ∧ ∃ rc,
      call fn_theme (VFunction 1) (VObject themed_props) = Ok rc
      ∧ el_config themed_element !! js "style"
        = Some (mergedStyles rc
                  (default VUndefined (themed_props !! js "style"))).
Proof.
  assert (render fn_theme object_is_fresh (js "span") (str "foo")
            (VFunction 1) [] themed_props VNull = Ok themed_element)
    as Hrender by (vm_compute; reflexivity).
  split; [exact object_is_fresh_sound|]. split; [exact Hrender|].
  do 2 (split; [reflexivity|]).
  exact (css_function_receives_props fn_theme object_is_fresh
           object_is_fresh_sound _ _ _ _ _ _ _ (VFunction 1)
           Hrender eq_refl eq_refl).
Defined.

Lemma omitCustomProps_filter_witness :
  plain_props !! js "__proto__" = None
  ∧ omitCustomProps (VObject plain_props) (VArray (VString <$> [js "$size"]))
    = VObject (filter (λ kv, kv.1 ∉ [js "$size"]) plain_props).
Proof.
  split; [reflexivity|].
  exact (omitCustomProps_filter plain_props [js "$size"] eq_refl).
Defined.

Lemma omitCustomProps_nothing_listed_witness :
  plain_props !! js "__proto__" = None
  ∧ omitCustomProps (VObject plain_props) (VArray []) = VObject plain_props.
Proof.
  split; [reflexivity|].
  exact (omitCustomProps_nothing_listed plain_props eq_refl).
Defined.

Lemma omitCustomProps_twice_witness :
  themed_props !! js "__proto__" = None
  ∧ omitCustomProps
      (omitCustomProps (VObject themed_props)
         (VArray (VString <$> [js "$wide"])))
      (VArray (VString <$> [js "ref"; js "id"]))
    = omitCustomProps (VObject themed_props)
        (VArray (VString <$> ([js "$wide"] ++ [js "ref"; js "id"]))).
Proof.
  split; [reflexivity|].
  exact (omitCustomProps_twice themed_props [js "$wide"]
           [js "ref"; js "id"] eq_refl).
Defined.

(** ** The final class name *)

Section Class_name.

Variable fn : N → value → result value.
Variable object_is : value → value → bool.

(** Props and styles are not mutated between renders. *)
Hypothesis object_is_sound : ∀ a b, object_is a b = true → a = b.

(** C3. The final class name is the base class, the dynamic class tokens
    and the incoming [className], in that order, joined with single
    spaces, white space collapsed and trimmed; entries that are falsy or
    empty contribute nothing.  Class tokens are strings or falsy values.
    (At [options = "foo"] and [className = "bar"] this is ["foo bar"];
    at [{ base: "a", classes: p => [p.active ? "active" : ""] }] and
    [{ active: false }] it is ["a"].) *)
Theorem final_class_name_concatenation
    (tag : jsstring) (options css : value)
    (history : list (gmap jsstring value * value))
    (props : gmap jsstring value) (ref : value) (el : element)
    (base dc dyn : value) :
  baseClass options = Ok base →
  dynamicClasses options = Ok dc →
  (if truthy dc then call fn dc (VObject props) else Ok (VArray []))
  = Ok dyn →
  is_class_token base →
  Forall is_class_token (tokens_of dyn) →
  is_class_token (default VUndefined (props !! js "className")) →
  render fn object_is tag options css history props ref = Ok el →
  el_config el !! js "className"
  = Some (VString
            (spec_class_name base (tokens_of dyn)
               (default VUndefined (props !! js "className")))).
Proof using object_is_sound.
  intros Hbase Hdc Hdyn Tbase Tdyn Tcn Hrender.
  apply render_inv in Hrender
    as (bc & dc' & dcss & cls & rc & Hbc & Hdc' & _ & Hcls & _ & ->);
    [|done].
  apply classes_inv in Hcls as (dyn' & Hdyn' & ->).
  assert (bc = base) as -> by congruence.
  assert (dc' = dc) as -> by congruence.
  assert (dyn' = dyn) as -> by congruence.
  simpl. rewrite config_className.
  unfold spec_class_name, collapse_and_trim.
  by rewrite <- clsx_tokens, <- cleanClassName_join_words.
Qed.

End Class_name.

Lemma final_class_name_concatenation_witness :
  ((∀ a b, object_is_fresh a b = true → a = b)
   ∧ baseClass (str "foo") = Ok (str "foo")
   ∧ dynamicClasses (str "foo") = Ok VUndefined
   ∧ (if truthy VUndefined
      then call fn_active VUndefined (VObject label_props)
      else Ok (VArray [])) = Ok (VArray [])
   ∧ is_class_token (str "foo")
   ∧ Forall is_class_token (tokens_of (VArray []))
   ∧ is_class_token (str "bar")
   ∧ render fn_active object_is_fresh (js "div") (str "foo") VUndefined
       label_history label_props VNull = Ok label_element
   ∧ el_config label_element !! js "className" = Some (str "foo bar"))
  ∧ (baseClass toggle_options = Ok (str "a")
     ∧ dynamicClasses toggle_options = Ok (VFunction 0)
     ∧ (if truthy (VFunction 0)
        then call fn_active (VFunction 0) (VObject toggle_off_props)
        else Ok (VArray [])) = Ok (VArray [str ""])
     ∧ is_class_token (str "a")
     ∧ Forall is_class_token (tokens_of (VArray [str ""]))
     ∧ is_class_token VUndefined
     ∧ render fn_active object_is_fresh (js "div") toggle_options VUndefined
         [] toggle_off_props VNull = Ok toggle_off_element
     ∧ el_config toggle_off_element !! js "className" = Some (str "a"))
  ∧ (baseClass untidy_base = Ok untidy_base
     ∧ dynamicClasses untidy_base = Ok VUndefined
     ∧ (if truthy VUndefined
        then call fn_active VUndefined (VObject untidy_props)
        else Ok (VArray [])) = Ok (VArray [])
     ∧ is_class_token untidy_base
     ∧ Forall is_class_token (tokens_of (VArray []))
     ∧ is_class_token (VString (32%N :: js "big" ++ [10%N]))
     ∧ render fn_active object_is_fresh (js "div") untidy_base VUndefined
         [] untidy_props VNull = Ok untidy_element
     ∧ el_config untidy_element !! js "className"
       = Some (str "btn primary big")).
Proof.
  assert (∀ s, is_class_token (VString s)) as Hstring
    by (intros s; right; exists s; reflexivity).
  assert (is_class_token VUndefined) as Hundefined
    by (left; reflexivity).
  assert (render fn_active object_is_fresh (js "div") (str "foo") VUndefined
            label_history label_props VNull = Ok label_element) as Hlabel
    by (vm_compute; reflexivity).
  assert (render fn_active object_is_fresh (js "div") toggle_options
            VUndefined [] toggle_off_props VNull = Ok toggle_off_element)
    as Htoggle by (vm_compute; reflexivity).
  assert (render fn_active object_is_fresh (js "div") untidy_base
            VUndefined [] untidy_props VNull = Ok untidy_element)
    as Huntidy by (vm_compute; reflexivity).
  assert (Forall is_class_token (tokens_of (VArray [str ""]))) as Htokens
    by (constructor; [apply Hstring | constructor]).
  split; [|split].
  - split; [exact object_is_fresh_sound|].
    do 3 (split; [reflexivity|]). split; [apply Hstring|].
    split; [constructor|]. split; [apply Hstring|]. split; [exact Hlabel|].
    exact (final_class_name_concatenation fn_active object_is_fresh
             object_is_fresh_sound (js "div") (str "foo") VUndefined
             label_history label_props VNull label_element
             (str "foo") VUndefined (VArray [])
             eq_refl eq_refl eq_refl (Hstring _)
             (List.Forall_nil is_class_token)
             (Hstring (js "bar")) Hlabel).
  - do 3 (split; [reflexivity|]). split; [apply Hstring|].
    split; [exact Htokens|]. split; [exact Hundefined|].
    split; [exact Htoggle|].
    exact (final_class_name_concatenation fn_active object_is_fresh
             object_is_fresh_sound (js "div") toggle_options VUndefined
             [] toggle_off_props VNull toggle_off_element
             (str "a") (VFunction 0) (VArray [str ""])
             eq_refl eq_refl eq_refl (Hstring _) Htokens
             Hundefined Htoggle).
  - do 3 (split; [reflexivity|]). split; [apply Hstring|].
    split; [constructor|]. split; [apply Hstring|]. split; [exact Huntidy|].
    exact (final_class_name_concatenation fn_active object_is_fresh
             object_is_fresh_sound (js "div") untidy_base VUndefined
             [] untidy_props VNull untidy_element
             untidy_base VUndefined (VArray [])
             eq_refl eq_refl eq_refl (Hstring _)
             (List.Forall_nil is_class_token)
             (Hstring (32%N :: js "big" ++ [10%N])) Huntidy).
Defined.
